(** * OCSP request and response builders ([cryptography/x509/ocsp.py])

    A shallow embedding of the validation logic of the OCSP module: the
    hash-algorithm guard, the [_SingleResponse] constructor and the two
    immutable builders, over an explicit store of Python objects.

    Python values that the module only inspects (certificates, hash
    objects, datetimes, enum members) are immutable and are modelled as
    values of the variant [pyobj]; builder instances and lists have an
    identity and mutable attributes, so they live in a store and are
    referred to by location. *)

From Stdlib Require Import ZArith String List Bool Lia.
From stdpp Require Import base list gmap strings.

Import ListNotations.
Local Open Scope string_scope.
Local Open Scope list_scope.
Local Open Scope Z_scope.

(** ** Exceptions and fallible results *)

Inductive exn :=
| TypeError (msg : string)
| ValueError (msg : string)
| AttributeError (msg : string).

Inductive result (A : Type) :=
| Raise (e : exn)
| Return (a : A).

Arguments Raise {A} e.
Arguments Return {A} a.

Definition rbind {A B} (r : result A) (k : A -> result B) : result B :=
  match r with
  | Raise e => Raise e
  | Return a => k a
  end.

Notation "'let?' x ':=' r 'in' k" := (rbind r (fun x => k))
  (at level 10, x name, r at level 100, k at level 200, only parsing).

Definition is_Return {A} (r : result A) : bool :=
  match r with Return _ => true | Raise _ => false end.

(** ** Values the module inspects *)

(** Modelled from the spec: [x509.Certificate] is declared outside this
    file.  The certificate provider supplies values with a subject and a
    serial number; the builders never look inside one. *)
Record Certificate := { serial_number : Z; subject : string }.

(** Modelled from the spec: the classes of [cryptography.hazmat.primitives.hashes]
    are not part of this file.  The spec names five digest tags; every other
    hash class of that module is represented by [OtherHash] with its name. *)
Inductive HashAlgorithm :=
| SHA1 | SHA224 | SHA256 | SHA384 | SHA512
| OtherHash (name : string).

(** Modelled from the spec: [x509.ReasonFlags], an enum of revocation reason
    codes declared outside this file. *)
Inductive ReasonFlags :=
| unspecified | key_compromise | ca_compromise | affiliation_changed
| superseded | cessation_of_operation | certificate_hold
| privilege_withdrawn | aa_compromise | remove_from_crl.

Inductive OCSPResponderEncoding := HASH | NAME.

Inductive OCSPResponseStatus :=
| SUCCESSFUL | MALFORMED_REQUEST | INTERNAL_ERROR | TRY_LATER
| SIG_REQUIRED | UNAUTHORIZED.

Definition OCSPResponseStatus_value (s : OCSPResponseStatus) : Z :=
  match s with
  | SUCCESSFUL => 0
  | MALFORMED_REQUEST => 1
  | INTERNAL_ERROR => 2
  | TRY_LATER => 3
  | SIG_REQUIRED => 5
  | UNAUTHORIZED => 6
  end.

Inductive OCSPCertStatus := GOOD | REVOKED | UNKNOWN.

Definition OCSPCertStatus_value (s : OCSPCertStatus) : Z :=
  match s with GOOD => 0 | REVOKED => 1 | UNKNOWN => 2 end.

(** *** Datetimes

    A [datetime.datetime] is its wall-clock reading, counted in microseconds
    from the start of proleptic Gregorian ordinal 0 (so that the order of
    naive datetimes is the order of [wall_clock]), and the UTC offset of its
    [tzinfo] in microseconds, [None] for a naive datetime. *)
Record datetime := { wall_clock : Z; utcoffset : option Z }.

Definition _is_leap (year : Z) : bool :=
  (year mod 4 =? 0) && (negb (year mod 100 =? 0) || (year mod 400 =? 0)).

Definition _days_before_year (year : Z) : Z :=
  let y := year - 1 in y * 365 + y / 4 - y / 100 + y / 400.

Definition _DAYS_BEFORE_MONTH : list Z :=
  [0; 0; 31; 59; 90; 120; 151; 181; 212; 243; 273; 304; 334].

Definition _days_before_month (year month : Z) : Z :=
  nth (Z.to_nat month) _DAYS_BEFORE_MONTH 0
  + (if (2 <? month) && _is_leap year then 1 else 0).

Definition _ymd2ord (year month day : Z) : Z :=
  _days_before_year year + _days_before_month year month + day.

Definition microseconds_per_day : Z := 86400 * 1000000.

(** [datetime.datetime(year, month, day)], naive, at midnight. *)
Definition datetime_of (year month day : Z) : datetime :=
  {| wall_clock := _ymd2ord year month day * microseconds_per_day;
     utcoffset := None |}.

(** [a < b] on naive datetimes. *)
Definition datetime_lt (a b : datetime) : bool :=
  wall_clock a <? wall_clock b.

(** Modelled from the spec: [_EARLIEST_UTC_TIME] is imported from
    [cryptography.x509.base]; the spec gives the floor as 1950-01-01. *)
Definition _EARLIEST_UTC_TIME : datetime := datetime_of 1950 1 1.

(** Modelled from the spec: [_convert_to_naive_utc_time] is imported from
    [cryptography.x509.base]; the spec says timestamps are normalized to UTC.
    An aware datetime is shifted by its offset and loses its zone; a naive
    one is taken to be in UTC already. *)
Definition _convert_to_naive_utc_time (time : datetime) : datetime :=
  match utcoffset time with
  | Some offset => {| wall_clock := wall_clock time - offset; utcoffset := None |}
  | None => time
  end.

(** *** Extensions *)

(** Modelled from the spec: [x509.ObjectIdentifier] is declared outside this
    file; an identifier is its dotted string. *)
Definition ObjectIdentifier := string.

(** Modelled from the spec: [x509.ExtensionType] is declared outside this
    file; a typed extension value carries the identifier of its class and a
    payload. *)
Record ExtensionType := { oid : ObjectIdentifier; payload : string }.

(** Modelled from the spec: [x509.Extension] is declared outside this file;
    an extension is an identifier, a criticality flag and a typed value.  The
    flag is a [bool], as the annotation [critical: bool] has it. *)
Record Extension := {
  ext_oid : ObjectIdentifier;
  ext_critical : bool;
  ext_value : ExtensionType
}.

(** *** Dynamically typed arguments *)

Inductive pyobj :=
| PyNone
| PyInt (n : Z)
| PyStr (s : string)
| PyCertificate (c : Certificate)
| PyHash (a : HashAlgorithm)
| PyDatetime (d : datetime)
| PyCertStatus (s : OCSPCertStatus)
| PyResponseStatus (s : OCSPResponseStatus)
| PyResponderEncoding (e : OCSPResponderEncoding)
| PyReasonFlags (r : ReasonFlags)
| PyExtensionType (v : ExtensionType)
| PyPrivateKey (key_id : string).

Definition is_None (o : pyobj) : bool :=
  match o with PyNone => true | _ => false end.

Definition isinstance_Certificate (o : pyobj) : bool :=
  match o with PyCertificate _ => true | _ => false end.

Definition isinstance_datetime (o : pyobj) : bool :=
  match o with PyDatetime _ => true | _ => false end.

Definition isinstance_OCSPResponseStatus (o : pyobj) : bool :=
  match o with PyResponseStatus _ => true | _ => false end.

Definition isinstance_OCSPResponderEncoding (o : pyobj) : bool :=
  match o with PyResponderEncoding _ => true | _ => false end.

Definition isinstance_ReasonFlags (o : pyobj) : bool :=
  match o with PyReasonFlags _ => true | _ => false end.

(** ** The hash-algorithm guard *)

Definition _ALLOWED_HASHES : list HashAlgorithm :=
  [SHA1; SHA224; SHA256; SHA384; SHA512].

Definition HashAlgorithm_eqb (a b : HashAlgorithm) : bool :=
  match a, b with
  | SHA1, SHA1 | SHA224, SHA224 | SHA256, SHA256
  | SHA384, SHA384 | SHA512, SHA512 => true
  | OtherHash n, OtherHash m => String.eqb n m
  | _, _ => false
  end.

(** [isinstance(algorithm, _ALLOWED_HASHES)]. *)
Definition isinstance_ALLOWED_HASHES (algorithm : pyobj) : bool :=
  match algorithm with
  | PyHash a => existsb (HashAlgorithm_eqb a) _ALLOWED_HASHES
  | _ => false
  end.

Definition algorithm_error : exn :=
  ValueError "Algorithm must be SHA1, SHA224, SHA256, SHA384, or SHA512".

Definition _verify_algorithm (algorithm : pyobj) : result unit :=
  if negb (isinstance_ALLOWED_HASHES algorithm)
  then Raise algorithm_error
  else Return tt.

(** ** The single-response record *)

Record _SingleResponse := {
  _cert : pyobj;
  _issuer : pyobj;
  _algorithm : pyobj;
  _this_update : pyobj;
  _next_update : pyobj;
  _cert_status : pyobj;
  _revocation_time : pyobj;
  _revocation_reason : pyobj
}.

(** [_SingleResponse.__init__].  The instance under construction is
    reachable only through the constructor's return value, so a constructor
    that raises yields no record. *)
Definition _SingleResponse__init__
    (cert issuer algorithm cert_status this_update next_update
     revocation_time revocation_reason : pyobj) : result _SingleResponse :=
  if negb (isinstance_Certificate cert) || negb (isinstance_Certificate issuer)
  then Raise (TypeError "cert and issuer must be a Certificate")
  else
  let? _ := _verify_algorithm algorithm in
  if negb (isinstance_datetime this_update)
  then Raise (TypeError "this_update must be a datetime object")
  else
  if negb (is_None next_update) && negb (isinstance_datetime next_update)
  then Raise (TypeError "next_update must be a datetime object or None")
  else
  let finish (revocation_time : pyobj) :=
    Return {| _cert := cert; _issuer := issuer; _algorithm := algorithm;
              _this_update := this_update; _next_update := next_update;
              _cert_status := cert_status;
              _revocation_time := revocation_time;
              _revocation_reason := revocation_reason |} in
  match cert_status with
  | PyCertStatus status =>
      match status with
      | REVOKED =>
          match revocation_time with
          | PyDatetime t =>
              let t := _convert_to_naive_utc_time t in
              if datetime_lt t _EARLIEST_UTC_TIME
              then Raise (ValueError
                     "The revocation_time must be on or after 1950 January 1.")
              else
              if negb (is_None revocation_reason)
                 && negb (isinstance_ReasonFlags revocation_reason)
              then Raise (TypeError
                     "revocation_reason must be an item from the ReasonFlags enum or None")
              else finish (PyDatetime t)
          | _ => Raise (TypeError "revocation_time must be a datetime object")
          end
      | _ =>
          if negb (is_None revocation_time)
          then Raise (ValueError
                 "revocation_time can only be provided if the certificate is revoked")
          else
          if negb (is_None revocation_reason)
          then Raise (ValueError
                 "revocation_reason can only be provided if the certificate is revoked")
          else finish revocation_time
      end
  | _ => Raise (TypeError
           "cert_status must be an item from the OCSPCertStatus enum")
  end.

(** ** The store

    Builder instances and lists are objects with an identity.  The store is
    the sequence of objects allocated so far; a location is an index into it,
    and allocation appends.  No operation of this module assigns to an
    attribute of an existing instance or updates a list in place, so the
    store only ever grows; that is a property proved below, not an assumption
    of the model. *)

Abbreviation loc := nat (only parsing).

Module Request.
(** Attributes of an [OCSPRequestBuilder] instance. *)
Record attrs := {
  _request : option (pyobj * pyobj * pyobj);
  _extensions : loc
}.
End Request.

Module Response.
(** Attributes of an [OCSPResponseBuilder] instance. *)
Record attrs := {
  _response : option _SingleResponse;
  _responder_id : option (pyobj * pyobj);
  _certs : option loc;
  _extensions : loc
}.
End Response.

(** The objects of the store: a list of extensions (the value of an
    [_extensions] attribute), a list made by [list(certs)], and the instances
    of the two builder classes.  A builder refers to its lists by location,
    so two builders may share one list object: [add_certificate] passes
    [self._extensions] on as it is, and all builders made without an explicit
    list share the default one. *)
Inductive object :=
| ExtensionList (items : list Extension)
| ObjectList (items : list pyobj)
| RequestBuilderInstance (a : Request.attrs)
| ResponseBuilderInstance (a : Response.attrs).

Abbreviation store := (list object) (only parsing).

(** Computations that read the store, allocate in it and may raise. *)
Definition M (A : Type) : Type := store -> result A * store.

Definition ret {A} (a : A) : M A := fun s => (Return a, s).

Definition raise {A} (e : exn) : M A := fun s => (Raise e, s).

Definition lift {A} (r : result A) : M A := fun s => (r, s).

Definition bind {A B} (m : M A) (k : A -> M B) : M B :=
  fun s =>
    match m s with
    | (Raise e, s') => (Raise e, s')
    | (Return a, s') => k a s'
    end.

Notation "'let*' x ':=' m 'in' k" := (bind m (fun x => k))
  (at level 10, x name, m at level 100, k at level 200, only parsing).

Definition new (o : object) : M loc :=
  fun s => (Return (length s), s ++ [o]).

Definition not_an_instance : exn :=
  AttributeError "object has no such attribute".

(** Reading the extension list an attribute refers to. *)
Definition load_extensions (l : loc) : M (list Extension) :=
  fun s =>
    match s !! l with
    | Some (ExtensionList items) => (Return items, s)
    | _ => (Raise not_an_instance, s)
    end.

(** What the backend is asked to do.  [build], [sign] and
    [build_unsuccessful] end in a call into the OpenSSL backend, which is
    outside this module; the model returns the call that is made. *)
Inductive backend_call :=
| create_ocsp_request (builder : loc)
| create_ocsp_response (response_status : OCSPResponseStatus)
    (builder : option loc) (private_key : pyobj) (algorithm : pyobj).

(** The constraint error of a repeated extension identifier. *)
Definition duplicate_extension_error : exn :=
  ValueError "This extension has already been set.".

(** Modelled from the spec: [_reject_duplicate_extension] is imported from
    [cryptography.x509.base].  The spec: adding fails if an extension with
    that identifier already exists in the list; detection is by identifier,
    not by value. *)
Fixpoint _reject_duplicate_extension
    (extension : Extension) (extensions : list Extension) : result unit :=
  match extensions with
  | [] => Return tt
  | e :: rest =>
      if String.eqb (ext_oid e) (ext_oid extension)
      then Raise duplicate_extension_error
      else _reject_duplicate_extension extension rest
  end.

(** [x509.Extension(extval.oid, critical, extval)]. *)
Definition make_extension (extval : ExtensionType) (critical : bool) : Extension :=
  {| ext_oid := oid extval; ext_critical := critical; ext_value := extval |}.

(** ** OCSPRequestBuilder *)

Module OCSPRequestBuilder.
Import Request.

(** The list object created once for the default [extensions=[]] of
    [__init__]; every builder made without an explicit list refers to it. *)
Definition default_extensions : loc := 0%nat.

Definition __init__ (request : option (pyobj * pyobj * pyobj))
    (extensions : loc) : M loc :=
  new (RequestBuilderInstance
         {| _request := request; _extensions := extensions |}).

Definition self_attrs (self : loc) : M attrs :=
  fun s =>
    match s !! self with
    | Some (RequestBuilderInstance a) => (Return a, s)
    | _ => (Raise not_an_instance, s)
    end.

Definition add_certificate (self : loc) (cert issuer algorithm : pyobj)
    : M loc :=
  let* a := self_attrs self in
  match _request a with
  | Some _ =>
      raise (ValueError "Only one certificate can be added to a request")
  | None =>
      let* _ := lift (_verify_algorithm algorithm) in
      if negb (isinstance_Certificate cert)
         || negb (isinstance_Certificate issuer)
      then raise (TypeError "cert and issuer must be a Certificate")
      else __init__ (Some (cert, issuer, algorithm)) (_extensions a)
  end.

(** [self._extensions + [extension]] is a new list object; the receiver's
    list is read, not updated. *)
Definition add_extension (self : loc) (extval : pyobj) (critical : bool)
    : M loc :=
  match extval with
  | PyExtensionType v =>
      let extension := make_extension v critical in
      let* a := self_attrs self in
      let* items := load_extensions (_extensions a) in
      let* _ := lift (_reject_duplicate_extension extension items) in
      let* extensions := new (ExtensionList (items ++ [extension])) in
      __init__ (_request a) extensions
  | _ => raise (TypeError "extension must be an ExtensionType")
  end.

Definition build (self : loc) : M backend_call :=
  let* a := self_attrs self in
  match _request a with
  | None => raise (ValueError "You must add a certificate before building")
  | Some _ => ret (create_ocsp_request self)
  end.
End OCSPRequestBuilder.

(** ** OCSPResponseBuilder *)

Module OCSPResponseBuilder.
Import Response.

Definition default_extensions : loc := 1%nat.

Definition __init__ (response : option _SingleResponse)
    (responder_id : option (pyobj * pyobj)) (certs : option loc)
    (extensions : loc) : M loc :=
  new (ResponseBuilderInstance
         {| _response := response; _responder_id := responder_id;
            _certs := certs; _extensions := extensions |}).

Definition self_attrs (self : loc) : M attrs :=
  fun s =>
    match s !! self with
    | Some (ResponseBuilderInstance a) => (Return a, s)
    | _ => (Raise not_an_instance, s)
    end.

Definition add_response (self : loc)
    (cert issuer algorithm cert_status this_update next_update
     revocation_time revocation_reason : pyobj) : M loc :=
  let* a := self_attrs self in
  match _response a with
  | Some _ => raise (ValueError "Only one response per OCSPResponse.")
  | None =>
      let* singleresp :=
        lift (_SingleResponse__init__ cert issuer algorithm cert_status
                this_update next_update revocation_time revocation_reason) in
      __init__ (Some singleresp) (_responder_id a) (_certs a) (_extensions a)
  end.

Definition responder_id (self : loc) (encoding responder_cert : pyobj)
    : M loc :=
  let* a := self_attrs self in
  match _responder_id a with
  | Some _ => raise (ValueError "responder_id can only be set once")
  | None =>
      if negb (isinstance_Certificate responder_cert)
      then raise (TypeError "responder_cert must be a Certificate")
      else
      if negb (isinstance_OCSPResponderEncoding encoding)
      then raise (TypeError
             "encoding must be an element from OCSPResponderEncoding")
      else __init__ (_response a) (Some (responder_cert, encoding))
             (_certs a) (_extensions a)
  end.

(** [certs] is the sequence of items the iterable yields; [list(certs)]
    allocates a list object before the items are looked at. *)
Definition certificates (self : loc) (certs : list pyobj) : M loc :=
  let* a := self_attrs self in
  match _certs a with
  | Some _ => raise (ValueError "certificates may only be set once")
  | None =>
      let* certs_list := new (ObjectList certs) in
      if (length certs =? 0)%nat
      then raise (ValueError "certs must not be an empty list")
      else
      if negb (forallb isinstance_Certificate certs)
      then raise (TypeError "certs must be a list of Certificates")
      else __init__ (_response a) (_responder_id a) (Some certs_list)
             (_extensions a)
  end.

Definition add_extension (self : loc) (extval : pyobj) (critical : bool)
    : M loc :=
  match extval with
  | PyExtensionType v =>
      let extension := make_extension v critical in
      let* a := self_attrs self in
      let* items := load_extensions (_extensions a) in
      let* _ := lift (_reject_duplicate_extension extension items) in
      let* extensions := new (ExtensionList (items ++ [extension])) in
      __init__ (_response a) (_responder_id a) (_certs a) extensions
  | _ => raise (TypeError "extension must be an ExtensionType")
  end.

Definition sign (self : loc) (private_key algorithm : pyobj)
    : M backend_call :=
  let* a := self_attrs self in
  match _response a with
  | None => raise (ValueError "You must add a response before signing")
  | Some _ =>
      match _responder_id a with
      | None =>
          raise (ValueError "You must add a responder_id before signing")
      | Some _ =>
          ret (create_ocsp_response SUCCESSFUL (Some self)
                 private_key algorithm)
      end
  end.

(** A class method: there is no receiver. *)
Definition build_unsuccessful (response_status : pyobj) : M backend_call :=
  match response_status with
  | PyResponseStatus status =>
      match status with
      | SUCCESSFUL => raise (ValueError "response_status cannot be SUCCESSFUL")
      | _ => ret (create_ocsp_response status None PyNone PyNone)
      end
  | _ => raise (TypeError
           "response_status must be an item from OCSPResponseStatus")
  end.
End OCSPResponseBuilder.

(** The store once the module is imported: the two default extension lists.
    [OCSPRequestBuilder()] and [OCSPResponseBuilder()] are [__init__] at the
    defaults. *)
Definition module_store : store := [ExtensionList []; ExtensionList []].

Definition new_OCSPRequestBuilder : M loc :=
  OCSPRequestBuilder.__init__ None OCSPRequestBuilder.default_extensions.

Definition new_OCSPResponseBuilder : M loc :=
  OCSPResponseBuilder.__init__ None None None
    OCSPResponseBuilder.default_extensions.

(** ** Calls, chains and what a builder denotes *)

(** The operations that return a builder, with their arguments. *)
Inductive call :=
| Request_add_certificate (cert issuer algorithm : pyobj)
| Request_add_extension (extval : pyobj) (critical : bool)
| Response_add_response
    (cert issuer algorithm cert_status this_update next_update
     revocation_time revocation_reason : pyobj)
| Response_responder_id (encoding responder_cert : pyobj)
| Response_certificates (certs : list pyobj)
| Response_add_extension (extval : pyobj) (critical : bool).

Definition invoke (c : call) (self : loc) : M loc :=
  match c with
  | Request_add_certificate cert issuer algorithm =>
      OCSPRequestBuilder.add_certificate self cert issuer algorithm
  | Request_add_extension extval critical =>
      OCSPRequestBuilder.add_extension self extval critical
  | Response_add_response cert issuer algorithm cert_status this_update
      next_update revocation_time revocation_reason =>
      OCSPResponseBuilder.add_response self cert issuer algorithm cert_status
        this_update next_update revocation_time revocation_reason
  | Response_responder_id encoding responder_cert =>
      OCSPResponseBuilder.responder_id self encoding responder_cert
  | Response_certificates certs =>
      OCSPResponseBuilder.certificates self certs
  | Response_add_extension extval critical =>
      OCSPResponseBuilder.add_extension self extval critical
  end.

(** [b.m1(..).m2(..)...]: each call is made on the builder the previous one
    returned. *)
Fixpoint chain (calls : list call) (self : loc) : M loc :=
  match calls with
  | [] => ret self
  | c :: rest => let* b := invoke c self in chain rest b
  end.

Definition is_certificates (c : call) : bool :=
  match c with Response_certificates _ => true | _ => false end.

(** The operations that end a chain in a backend call. *)
Inductive finisher :=
| Request_build (self : loc)
| Response_sign (self : loc) (private_key algorithm : pyobj)
| Response_build_unsuccessful (response_status : pyobj).

Definition finish (f : finisher) : M backend_call :=
  match f with
  | Request_build self => OCSPRequestBuilder.build self
  | Response_sign self private_key algorithm =>
      OCSPResponseBuilder.sign self private_key algorithm
  | Response_build_unsuccessful response_status =>
      OCSPResponseBuilder.build_unsuccessful response_status
  end.

(** The contents of a builder, with the lists it refers to read out of the
    store: what two builders at different locations, or in different
    stores, have in common. *)
Inductive builder_view :=
| RequestBuilderView (request : option (pyobj * pyobj * pyobj))
    (extensions : list Extension)
| ResponseBuilderView (response : option _SingleResponse)
    (responder_id : option (pyobj * pyobj)) (certs : option (list pyobj))
    (extensions : list Extension).

Definition extensions_at (s : store) (l : loc) : option (list Extension) :=
  match s !! l with
  | Some (ExtensionList items) => Some items
  | _ => None
  end.

Definition items_at (s : store) (l : loc) : option (list pyobj) :=
  match s !! l with
  | Some (ObjectList items) => Some items
  | _ => None
  end.

Definition view (s : store) (l : loc) : option builder_view :=
  match s !! l with
  | Some (RequestBuilderInstance a) =>
      match extensions_at s (Request._extensions a) with
      | Some exts => Some (RequestBuilderView (Request._request a) exts)
      | None => None
      end
  | Some (ResponseBuilderInstance a) =>
      match extensions_at s (Response._extensions a) with
      | Some exts =>
          match Response._certs a with
          | None =>
              Some (ResponseBuilderView (Response._response a)
                      (Response._responder_id a) None exts)
          | Some c =>
              match items_at s c with
              | Some items =>
                  Some (ResponseBuilderView (Response._response a)
                          (Response._responder_id a) (Some items) exts)
              | None => None
              end
          end
      | None => None
      end
  | _ => None
  end.

Definition view_extensions (v : builder_view) : list Extension :=
  match v with
  | RequestBuilderView _ exts => exts
  | ResponseBuilderView _ _ _ exts => exts
  end.

Inductive builder_kind := RequestBuilder | ResponseBuilder.

Definition kind_of (v : builder_view) : builder_kind :=
  match v with
  | RequestBuilderView _ _ => RequestBuilder
  | ResponseBuilderView _ _ _ _ => ResponseBuilder
  end.

(** [add_extension] of the builder class in question. *)
Definition add_extension_call (k : builder_kind) (extval : ExtensionType)
    (critical : bool) : call :=
  match k with
  | RequestBuilder => Request_add_extension (PyExtensionType extval) critical
  | ResponseBuilder => Response_add_extension (PyExtensionType extval) critical
  end.

(** The same builder contents with more extensions at the end. *)
Definition append_extensions (v : builder_view) (new : list Extension)
    : builder_view :=
  match v with
  | RequestBuilderView request exts => RequestBuilderView request (exts ++ new)
  | ResponseBuilderView response responder_id certs exts =>
      ResponseBuilderView response responder_id certs (exts ++ new)
  end.

Definition view_certs (v : builder_view) : option (list pyobj) :=
  match v with
  | RequestBuilderView _ _ => None
  | ResponseBuilderView _ _ certs _ => certs
  end.

Definition is_builder (o : object) : bool :=
  match o with
  | RequestBuilderInstance _ | ResponseBuilderInstance _ => true
  | _ => false
  end.

(** ** Fixtures for the examples *)

Definition leaf_cert : Certificate :=
  {| serial_number := 4097; subject := "CN=leaf" |}.

Definition issuer_cert : Certificate :=
  {| serial_number := 1; subject := "CN=issuing CA" |}.

Definition nonce_ext : ExtensionType :=
  {| oid := "1.3.6.1.5.5.7.48.1.2"; payload := "0123" |}.

Definition other_nonce_ext : ExtensionType :=
  {| oid := "1.3.6.1.5.5.7.48.1.2"; payload := "4567" |}.

Definition sct_ext : ExtensionType :=
  {| oid := "1.3.6.1.4.1.11129.2.4.5"; payload := "sct" |}.

(** The store after [OCSPRequestBuilder()] and [OCSPResponseBuilder()]:
    the request builder is at 2, the response builder at 3. *)
Definition fresh_store : store :=
  snd (new_OCSPResponseBuilder (snd (new_OCSPRequestBuilder module_store))).

(** One hour east of UTC, in the year 1900: an aware datetime. *)
Definition aware_1900 : datetime :=
  {| wall_clock := wall_clock (datetime_of 1900 1 1);
     utcoffset := Some 3600000000 |}.

(** The five digests the module accepts, as arguments. *)
Definition permitted (algorithm : pyobj) : Prop :=
  In algorithm (map PyHash [SHA1; SHA224; SHA256; SHA384; SHA512]).

(** The store after, from [fresh_store],
    [b2.add_certificate(leaf, issuer, SHA256)] (the new request builder is
    at 4) and [b3.add_response(...).responder_id(HASH, issuer)
    .certificates([issuer])] (the new response builders are at 5, 6 and 8,
    the certificate list at 7). *)
Definition built_store : store :=
  snd (chain
         [Response_add_response (PyCertificate leaf_cert)
            (PyCertificate issuer_cert) (PyHash SHA256) (PyCertStatus GOOD)
            (PyDatetime (datetime_of 2024 3 1))
            (PyDatetime (datetime_of 2024 3 8)) PyNone PyNone;
          Response_responder_id (PyResponderEncoding HASH)
            (PyCertificate issuer_cert);
          Response_certificates [PyCertificate issuer_cert]]
         3%nat
         (snd (OCSPRequestBuilder.add_certificate 2%nat
                 (PyCertificate leaf_cert) (PyCertificate issuer_cert)
                 (PyHash SHA256) fresh_store))).

(** ** Lookup tables of the module *)

(** [_OIDS_TO_HASH]: the dict literal, its items inserted in source order. *)
Definition _OIDS_TO_HASH : gmap string HashAlgorithm :=
  foldl (fun m kv => <[fst kv := snd kv]> m) ∅
    [("1.3.14.3.2.26", SHA1);
     ("2.16.840.1.101.3.4.2.4", SHA224);
     ("2.16.840.1.101.3.4.2.1", SHA256);
     ("2.16.840.1.101.3.4.2.2", SHA384);
     ("2.16.840.1.101.3.4.2.3", SHA512)].

(** Iterating over an enum class yields its members in definition order. *)
Definition OCSPResponseStatus_members : list OCSPResponseStatus :=
  [SUCCESSFUL; MALFORMED_REQUEST; INTERNAL_ERROR; TRY_LATER; SIG_REQUIRED;
   UNAUTHORIZED].

Definition OCSPCertStatus_members : list OCSPCertStatus :=
  [GOOD; REVOKED; UNKNOWN].

(** [{x.value: x for x in OCSPResponseStatus}]. *)
Definition _RESPONSE_STATUS_TO_ENUM : gmap Z OCSPResponseStatus :=
  foldl (fun m x => <[OCSPResponseStatus_value x := x]> m) ∅
    OCSPResponseStatus_members.

(** [{x.value: x for x in OCSPCertStatus}]. *)
Definition _CERT_STATUS_TO_ENUM : gmap Z OCSPCertStatus :=
  foldl (fun m x => <[OCSPCertStatus_value x := x]> m) ∅
    OCSPCertStatus_members.

(** ** Builder contents, call by call *)

(** The method a call invokes. *)
Inductive operation :=
| op_request_add_certificate | op_request_add_extension
| op_response_add_response | op_response_responder_id
| op_response_certificates | op_response_add_extension.

Definition operation_of (c : call) : operation :=
  match c with
  | Request_add_certificate _ _ _ => op_request_add_certificate
  | Request_add_extension _ _ => op_request_add_extension
  | Response_add_response _ _ _ _ _ _ _ _ => op_response_add_response
  | Response_responder_id _ _ => op_response_responder_id
  | Response_certificates _ => op_response_certificates
  | Response_add_extension _ _ => op_response_add_extension
  end.

#[global] Instance operation_eq_dec : EqDecision operation.
Proof. solve_decision. Defined.

(** The methods that fill a slot which can be filled once. *)
Definition once_only (o : operation) : bool :=
  match o with
  | op_request_add_extension | op_response_add_extension => false
  | _ => true
  end.

(** Whether the slot an operation fills is filled in a builder. *)
Definition slot_filled (o : operation) (bv : builder_view) : bool :=
  match o, bv with
  | op_request_add_certificate, RequestBuilderView (Some _) _ => true
  | op_response_add_response, ResponseBuilderView (Some _) _ _ _ => true
  | op_response_responder_id, ResponseBuilderView _ (Some _) _ _ => true
  | op_response_certificates, ResponseBuilderView _ _ (Some _) _ => true
  | _, _ => false
  end.

(** How many calls of a chain invoke a given method. *)
Fixpoint count_calls (o : operation) (calls : list call) : nat :=
  match calls with
  | [] => 0%nat
  | c :: rest =>
      ((if bool_decide (operation_of c = o) then 1 else 0)
       + count_calls o rest)%nat
  end.

(** The contents of the builder a call returns, from the contents of its
    receiver: the methods of the two classes with the lists read out of the
    store.  The store-level methods are shown to compute this. *)
Definition apply_call (c : call) (bv : builder_view) : result builder_view :=
  match c with
  | Request_add_certificate cert issuer algorithm =>
      match bv with
      | RequestBuilderView request exts =>
          match request with
          | Some _ =>
              Raise (ValueError "Only one certificate can be added to a request")
          | None =>
              let? _ := _verify_algorithm algorithm in
              if negb (isinstance_Certificate cert)
                 || negb (isinstance_Certificate issuer)
              then Raise (TypeError "cert and issuer must be a Certificate")
              else Return (RequestBuilderView
                             (Some (cert, issuer, algorithm)) exts)
          end
      | ResponseBuilderView _ _ _ _ => Raise not_an_instance
      end
  | Request_add_extension extval critical =>
      match extval with
      | PyExtensionType v =>
          match bv with
          | RequestBuilderView request exts =>
              let? _ := _reject_duplicate_extension
                          (make_extension v critical) exts in
              Return (RequestBuilderView request
                        (exts ++ [make_extension v critical]))
          | ResponseBuilderView _ _ _ _ => Raise not_an_instance
          end
      | _ => Raise (TypeError "extension must be an ExtensionType")
      end
  | Response_add_response cert issuer algorithm cert_status this_update
      next_update revocation_time revocation_reason =>
      match bv with
      | ResponseBuilderView response rid certs exts =>
          match response with
          | Some _ => Raise (ValueError "Only one response per OCSPResponse.")
          | None =>
              let? singleresp :=
                _SingleResponse__init__ cert issuer algorithm cert_status
                  this_update next_update revocation_time revocation_reason in
              Return (ResponseBuilderView (Some singleresp) rid certs exts)
          end
      | RequestBuilderView _ _ => Raise not_an_instance
      end
  | Response_responder_id encoding responder_cert =>
      match bv with
      | ResponseBuilderView response rid certs exts =>
          match rid with
          | Some _ => Raise (ValueError "responder_id can only be set once")
          | None =>
              if negb (isinstance_Certificate responder_cert)
              then Raise (TypeError "responder_cert must be a Certificate")
              else
              if negb (isinstance_OCSPResponderEncoding encoding)
              then Raise (TypeError
                     "encoding must be an element from OCSPResponderEncoding")
              else Return (ResponseBuilderView response
                             (Some (responder_cert, encoding)) certs exts)
          end
      | RequestBuilderView _ _ => Raise not_an_instance
      end
  | Response_certificates new_certs =>
      match bv with
      | ResponseBuilderView response rid certs exts =>
          match certs with
          | Some _ => Raise (ValueError "certificates may only be set once")
          | None =>
              if (length new_certs =? 0)%nat
              then Raise (ValueError "certs must not be an empty list")
              else
              if negb (forallb isinstance_Certificate new_certs)
              then Raise (TypeError "certs must be a list of Certificates")
              else Return (ResponseBuilderView response rid
                             (Some new_certs) exts)
          end
      | RequestBuilderView _ _ => Raise not_an_instance
      end
  | Response_add_extension extval critical =>
      match extval with
      | PyExtensionType v =>
          match bv with
          | ResponseBuilderView response rid certs exts =>
              let? _ := _reject_duplicate_extension
                          (make_extension v critical) exts in
              Return (ResponseBuilderView response rid certs
                        (exts ++ [make_extension v critical]))
          | RequestBuilderView _ _ => Raise not_an_instance
          end
      | _ => Raise (TypeError "extension must be an ExtensionType")
      end
  end.

Fixpoint apply_calls (calls : list call) (bv : builder_view)
    : result builder_view :=
  match calls with
  | [] => Return bv
  | c :: rest => let? bv' := apply_call c bv in apply_calls rest bv'
  end.

(** ** Predicates on builder contents *)

(** A slot that is filled stays filled with the same value. *)
Definition slot_kept {A} (old new : option A) : Prop :=
  forall x, old = Some x -> new = Some x.

(** [bv'] has everything [bv] has: the same class, every filled slot with
    the same value, and the extensions of [bv] at the front, in order. *)
Definition extends (bv bv' : builder_view) : Prop :=
  match bv, bv' with
  | RequestBuilderView request exts, RequestBuilderView request' exts' =>
      slot_kept request request' /\ exts `prefix_of` exts'
  | ResponseBuilderView response rid certs exts,
    ResponseBuilderView response' rid' certs' exts' =>
      slot_kept response response' /\ slot_kept rid rid' /\
      slot_kept certs certs' /\ exts `prefix_of` exts'
  | _, _ => False
  end.

(** What the constructor guarantees of a record it returned. *)
Definition valid_single_response (r : _SingleResponse) : Prop :=
  isinstance_Certificate (_cert r) = true /\
  isinstance_Certificate (_issuer r) = true /\
  permitted (_algorithm r) /\
  isinstance_datetime (_this_update r) = true /\
  (_next_update r = PyNone \/ isinstance_datetime (_next_update r) = true) /\
  exists status, _cert_status r = PyCertStatus status /\
    match status with
    | REVOKED =>
        (exists t, _revocation_time r = PyDatetime t /\
           utcoffset t = None /\
           datetime_lt t _EARLIEST_UTC_TIME = false) /\
        (_revocation_reason r = PyNone \/
         isinstance_ReasonFlags (_revocation_reason r) = true)
    | _ => _revocation_time r = PyNone /\ _revocation_reason r = PyNone
    end.

(** What every check of the two builders guarantees of the contents. *)
Definition well_formed (bv : builder_view) : Prop :=
  match bv with
  | RequestBuilderView request exts =>
      (forall cert issuer algorithm,
         request = Some (cert, issuer, algorithm) ->
         isinstance_Certificate cert = true /\
         isinstance_Certificate issuer = true /\ permitted algorithm) /\
      NoDup (map ext_oid exts)
  | ResponseBuilderView response rid certs exts =>
      (forall r, response = Some r -> valid_single_response r) /\
      (forall cert encoding, rid = Some (cert, encoding) ->
         isinstance_Certificate cert = true /\
         isinstance_OCSPResponderEncoding encoding = true) /\
      (forall l, certs = Some l ->
         l <> [] /\ forallb isinstance_Certificate l = true) /\
      NoDup (map ext_oid exts)
  end.

(** * Properties *)

(** ** Reading and extending the store *)

Lemma lookup_new (s : store) (o : object) : (s ++ [o]) !! length s = Some o.
Proof. by rewrite list_lookup_middle. Qed.

Lemma lookup_kept (s k : store) (l : loc) (o : object) :
  s !! l = Some o -> (s ++ k) !! l = Some o.
Proof. apply lookup_app_l_Some. Qed.

Lemma extensions_at_kept (s k : store) (l : loc) (items : list Extension) :
  extensions_at s l = Some items -> extensions_at (s ++ k) l = Some items.
Proof.
  unfold extensions_at. destruct (s !! l) as [o|] eqn:E; [|done].
  rewrite (lookup_kept _ k _ _ E). done.
Qed.

Lemma items_at_kept (s k : store) (l : loc) (items : list pyobj) :
  items_at s l = Some items -> items_at (s ++ k) l = Some items.
Proof.
  unfold items_at. destruct (s !! l) as [o|] eqn:E; [|done].
  rewrite (lookup_kept _ k _ _ E). done.
Qed.

Lemma view_kept (s k : store) (l : loc) (v : builder_view) :
  view s l = Some v -> view (s ++ k) l = Some v.
Proof.
  unfold view. destruct (s !! l) as [o|] eqn:E; [|done].
  rewrite (lookup_kept _ k _ _ E). destruct o as [| |a|a]; try done.
  - destruct (extensions_at s _) eqn:X; [|done].
    by rewrite (extensions_at_kept _ k _ _ X).
  - destruct (extensions_at s _) eqn:X; [|done].
    rewrite (extensions_at_kept _ k _ _ X).
    destruct (Response._certs a); [|done].
    destruct (items_at s _) eqn:I; [|done].
    by rewrite (items_at_kept _ k _ _ I).
Qed.

(** ** The operations, receiver by receiver *)

Ltac unfold_request :=
  unfold OCSPRequestBuilder.add_certificate, OCSPRequestBuilder.add_extension,
    OCSPRequestBuilder.build, OCSPRequestBuilder.__init__,
    OCSPRequestBuilder.self_attrs,
    bind, ret, raise, lift, new, load_extensions.

Ltac unfold_response :=
  unfold OCSPResponseBuilder.add_response, OCSPResponseBuilder.responder_id,
    OCSPResponseBuilder.certificates, OCSPResponseBuilder.add_extension,
    OCSPResponseBuilder.sign, OCSPResponseBuilder.build_unsuccessful,
    OCSPResponseBuilder.__init__, OCSPResponseBuilder.self_attrs,
    bind, ret, raise, lift, new, load_extensions.

Lemma verify_algorithm_allowed (algorithm : pyobj) :
  _verify_algorithm algorithm = Return tt <->
  isinstance_ALLOWED_HASHES algorithm = true.
Proof.
  unfold _verify_algorithm.
  destruct (isinstance_ALLOWED_HASHES algorithm); simpl; split; congruence.
Qed.

Lemma verify_algorithm_rejected (algorithm : pyobj) :
  _verify_algorithm algorithm = Raise algorithm_error <->
  isinstance_ALLOWED_HASHES algorithm = false.
Proof.
  unfold _verify_algorithm.
  destruct (isinstance_ALLOWED_HASHES algorithm); simpl; split; congruence.
Qed.

Lemma allowed_hashes_five (algorithm : pyobj) :
  isinstance_ALLOWED_HASHES algorithm = true <->
  algorithm = PyHash SHA1 \/ algorithm = PyHash SHA224 \/
  algorithm = PyHash SHA256 \/ algorithm = PyHash SHA384 \/
  algorithm = PyHash SHA512.
Proof.
  split.
  - destruct algorithm as [| | | |a| | | | | | |]; simpl; try discriminate.
    destruct a; simpl; try discriminate; intuition.
  - intros [->|[->|[->|[->| ->]]]]; reflexivity.
Qed.

Lemma add_certificate_at (s : store) (self : loc) (a : Request.attrs)
    (cert issuer algorithm : pyobj) :
  s !! self = Some (RequestBuilderInstance a) ->
  OCSPRequestBuilder.add_certificate self cert issuer algorithm s =
    match Request._request a with
    | Some _ =>
        (Raise (ValueError "Only one certificate can be added to a request"), s)
    | None =>
        if negb (isinstance_ALLOWED_HASHES algorithm)
        then (Raise algorithm_error, s)
        else
        if negb (isinstance_Certificate cert)
           || negb (isinstance_Certificate issuer)
        then (Raise (TypeError "cert and issuer must be a Certificate"), s)
        else (Return (length s),
              s ++ [RequestBuilderInstance
                      {| Request._request := Some (cert, issuer, algorithm);
                         Request._extensions := Request._extensions a |}])
    end.
Proof.
  intros H. unfold_request. rewrite H. destruct (Request._request a); [done|].
  unfold _verify_algorithm.
  destruct (isinstance_ALLOWED_HASHES algorithm); simpl; [|done].
  by destruct (negb (isinstance_Certificate cert)
               || negb (isinstance_Certificate issuer)).
Qed.

Lemma build_at (s : store) (self : loc) (a : Request.attrs) :
  s !! self = Some (RequestBuilderInstance a) ->
  OCSPRequestBuilder.build self s =
    match Request._request a with
    | None =>
        (Raise (ValueError "You must add a certificate before building"), s)
    | Some _ => (Return (create_ocsp_request self), s)
    end.
Proof. intros H. unfold_request. rewrite H. by destruct (Request._request a). Qed.

Lemma add_response_at (s : store) (self : loc) (a : Response.attrs)
    (cert issuer algorithm cert_status this_update next_update
     revocation_time revocation_reason : pyobj) :
  s !! self = Some (ResponseBuilderInstance a) ->
  OCSPResponseBuilder.add_response self cert issuer algorithm cert_status
    this_update next_update revocation_time revocation_reason s =
    match Response._response a with
    | Some _ => (Raise (ValueError "Only one response per OCSPResponse."), s)
    | None =>
        match _SingleResponse__init__ cert issuer algorithm cert_status
                this_update next_update revocation_time revocation_reason with
        | Raise e => (Raise e, s)
        | Return singleresp =>
            (Return (length s),
             s ++ [ResponseBuilderInstance
                     {| Response._response := Some singleresp;
                        Response._responder_id := Response._responder_id a;
                        Response._certs := Response._certs a;
                        Response._extensions := Response._extensions a |}])
        end
    end.
Proof.
  intros H. unfold_response. rewrite H.
  destruct (Response._response a); [done|]. by case_match.
Qed.

(** Whatever the receiver, [add_response] returns a builder only when the
    constructor returned the record that builder holds. *)
Lemma add_response_returns (s s' : store) (self new_builder : loc)
    (cert issuer algorithm cert_status this_update next_update
     revocation_time revocation_reason : pyobj) :
  OCSPResponseBuilder.add_response self cert issuer algorithm cert_status
    this_update next_update revocation_time revocation_reason s
    = (Return new_builder, s') ->
  exists a singleresp,
    s' !! new_builder = Some (ResponseBuilderInstance a) /\
    Response._response a = Some singleresp /\
    _SingleResponse__init__ cert issuer algorithm cert_status
      this_update next_update revocation_time revocation_reason
      = Return singleresp.
Proof.
  unfold_response. intros H. repeat case_match; simplify_eq.
  eexists _, _. split; [apply lookup_new|]. simpl. done.
Qed.

(** Whatever the receiver, [add_response] raises when the constructor does. *)
Lemma add_response_raises (s : store) (self : loc) (e : exn)
    (cert issuer algorithm cert_status this_update next_update
     revocation_time revocation_reason : pyobj) :
  _SingleResponse__init__ cert issuer algorithm cert_status
    this_update next_update revocation_time revocation_reason = Raise e ->
  exists e',
    OCSPResponseBuilder.add_response self cert issuer algorithm cert_status
      this_update next_update revocation_time revocation_reason s
      = (Raise e', s).
Proof.
  intros H. unfold_response. rewrite H. repeat case_match; simplify_eq; eauto.
Qed.

(** ** The single-response constructor *)

(** What is known of the arguments and of the record when the constructor
    returns. *)
Lemma single_response_returns
    (cert issuer algorithm cert_status this_update next_update
     revocation_time revocation_reason : pyobj) (r : _SingleResponse) :
  _SingleResponse__init__ cert issuer algorithm cert_status
    this_update next_update revocation_time revocation_reason = Return r ->
  (isinstance_Certificate cert = true /\
   isinstance_Certificate issuer = true /\
   isinstance_ALLOWED_HASHES algorithm = true /\
   isinstance_datetime this_update = true /\
   (next_update = PyNone \/ isinstance_datetime next_update = true)) /\
  (_cert r = cert /\ _issuer r = issuer /\ _algorithm r = algorithm /\
   _this_update r = this_update /\ _next_update r = next_update /\
   _cert_status r = cert_status /\
   _revocation_reason r = revocation_reason) /\
  exists status, cert_status = PyCertStatus status /\
    match status with
    | REVOKED =>
        exists t, revocation_time = PyDatetime t /\
          _revocation_time r = PyDatetime (_convert_to_naive_utc_time t) /\
          datetime_lt (_convert_to_naive_utc_time t) _EARLIEST_UTC_TIME = false /\
          (revocation_reason = PyNone \/
           isinstance_ReasonFlags revocation_reason = true)
    | _ =>
        revocation_time = PyNone /\ revocation_reason = PyNone /\
        _revocation_time r = PyNone
    end.
Proof.
  unfold _SingleResponse__init__, _verify_algorithm.
  destruct (isinstance_Certificate cert); simpl; [|discriminate].
  destruct (isinstance_Certificate issuer); simpl; [|discriminate].
  destruct (isinstance_ALLOWED_HASHES algorithm); simpl; [|discriminate].
  destruct (isinstance_datetime this_update); simpl; [|discriminate].
  intros H.
  assert (Hnext : next_update = PyNone \/ isinstance_datetime next_update = true).
  { destruct next_update; simpl in *; auto; discriminate. }
  destruct (negb (is_None next_update) && negb (isinstance_datetime next_update));
    [discriminate|].
  destruct cert_status as [| | | | | |status| | | | |]; try discriminate.
  destruct status.
  - destruct revocation_time; simpl in H; try discriminate.
    destruct revocation_reason; simpl in H; try discriminate.
    injection H as <-. simpl. split; [tauto|]. split; [tauto|].
    exists GOOD. tauto.
  - destruct revocation_time as [| | | | |t| | | | | |]; try discriminate.
    destruct (datetime_lt (_convert_to_naive_utc_time t) _EARLIEST_UTC_TIME)
      eqn:Hfloor; [discriminate|].
    assert (Hreason : revocation_reason = PyNone \/
                      isinstance_ReasonFlags revocation_reason = true).
    { destruct revocation_reason; simpl in *; auto; discriminate. }
    destruct (negb (is_None revocation_reason)
              && negb (isinstance_ReasonFlags revocation_reason));
      [discriminate|].
    injection H as <-. simpl. split; [tauto|]. split; [tauto|].
    exists REVOKED. split; [done|]. exists t. tauto.
  - destruct revocation_time; simpl in H; try discriminate.
    destruct revocation_reason; simpl in H; try discriminate.
    injection H as <-. simpl. split; [tauto|]. split; [tauto|].
    exists UNKNOWN. tauto.
Qed.

Lemma convert_is_naive (t : datetime) :
  utcoffset (_convert_to_naive_utc_time t) = None.
Proof.
  unfold _convert_to_naive_utc_time. by destruct (utcoffset t) eqn:E.
Qed.

(** The constructor raises for every argument list in which a certificate
    that is not revoked comes with a revocation time or reason. *)
Lemma single_response_not_revoked_raises
    (cert issuer algorithm this_update next_update
     revocation_time revocation_reason : pyobj) (status : OCSPCertStatus) :
  status <> REVOKED ->
  revocation_time <> PyNone \/ revocation_reason <> PyNone ->
  exists e,
    _SingleResponse__init__ cert issuer algorithm (PyCertStatus status)
      this_update next_update revocation_time revocation_reason = Raise e.
Proof.
  intros Hstatus Hfields.
  destruct (_SingleResponse__init__ cert issuer algorithm (PyCertStatus status)
              this_update next_update revocation_time revocation_reason)
    as [e|r] eqn:E; [eauto|].
  apply single_response_returns in E as (_ & _ & status' & [= <-] & Hs).
  destruct status; [| done |]; destruct Hs as (-> & -> & _); tauto.
Qed.

Lemma single_response_revoked_raises
    (cert issuer algorithm this_update next_update
     revocation_time revocation_reason : pyobj) :
  (forall t, revocation_time = PyDatetime t ->
     datetime_lt (_convert_to_naive_utc_time t) _EARLIEST_UTC_TIME = true) ->
  exists e,
    _SingleResponse__init__ cert issuer algorithm (PyCertStatus REVOKED)
      this_update next_update revocation_time revocation_reason = Raise e.
Proof.
  intros Htime.
  destruct (_SingleResponse__init__ cert issuer algorithm (PyCertStatus REVOKED)
              this_update next_update revocation_time revocation_reason)
    as [e|r] eqn:E; [eauto|].
  apply single_response_returns in E as (_ & _ & status' & [= <-] & Hs).
  destruct Hs as (t & Ht & _ & Hfloor & _).
  rewrite (Htime t Ht) in Hfloor. discriminate.
Qed.

(** ** Revocation fields and certificate status *)

Section AddResponse.
Variables (s : store) (self : loc).
Variables (cert issuer algorithm cert_status this_update next_update
           revocation_time revocation_reason : pyobj).

(** C1 (as amended).  [add_response] raises when the status is GOOD or
    UNKNOWN and a revocation time or a revocation reason is given, and when
    the status is REVOKED and no revocation time is given.  When it returns,
    the record of the new builder holds the status and the reason that were
    passed; its revocation time is set if and only if the status is REVOKED,
    and its revocation reason is set only if the status is REVOKED (a revoked
    certificate may have no reason). *)
Theorem C1_revocation_fields_follow_status :
  (forall status, cert_status = PyCertStatus status -> status <> REVOKED ->
     revocation_time <> PyNone \/ revocation_reason <> PyNone ->
     exists e,
       OCSPResponseBuilder.add_response self cert issuer algorithm
         cert_status this_update next_update revocation_time
         revocation_reason s = (Raise e, s)) /\
  (cert_status = PyCertStatus REVOKED -> revocation_time = PyNone ->
     exists e,
       OCSPResponseBuilder.add_response self cert issuer algorithm
         cert_status this_update next_update revocation_time
         revocation_reason s = (Raise e, s)) /\
  (forall new_builder s',
     OCSPResponseBuilder.add_response self cert issuer algorithm
       cert_status this_update next_update revocation_time
       revocation_reason s = (Return new_builder, s') ->
     exists a r,
       s' !! new_builder = Some (ResponseBuilderInstance a) /\
       Response._response a = Some r /\
       _cert_status r = cert_status /\
       _revocation_reason r = revocation_reason /\
       (revocation_time = PyNone -> _revocation_time r = PyNone) /\
       (_revocation_time r <> PyNone <-> cert_status = PyCertStatus REVOKED) /\
       (_revocation_reason r <> PyNone -> cert_status = PyCertStatus REVOKED)).
Proof.
  split; [|split].
  - intros status -> Hstatus Hfields.
    destruct (single_response_not_revoked_raises cert issuer algorithm
                this_update next_update revocation_time revocation_reason
                status Hstatus Hfields) as [e He].
    eapply add_response_raises, He.
  - intros -> ->.
    destruct (single_response_revoked_raises cert issuer algorithm
                this_update next_update PyNone revocation_reason) as [e He];
      [discriminate|].
    eapply add_response_raises, He.
  - intros new_builder s' H.
    apply add_response_returns in H as (a & r & Hnew & Hresp & Hinit).
    exists a, r. split; [done|]. split; [done|].
    apply single_response_returns in Hinit
      as (_ & (_ & _ & _ & _ & _ & Hst & Hrr) & status & -> & Hs).
    split; [done|]. split; [done|]. rewrite Hrr.
    destruct status.
    + destruct Hs as (-> & -> & ->). repeat split; try done.
    + destruct Hs as (t & -> & -> & _). repeat split; done.
    + destruct Hs as (-> & -> & ->). repeat split; try done.
Qed.

(** C2 (as amended).  Only the revocation time is normalized and held to
    the floor: when the status is REVOKED, [add_response] raises if the
    revocation time, converted to naive UTC, is before 1950-01-01, and when
    it returns the record holds the converted, naive revocation time, which
    is on or after the floor.  [this_update] and [next_update] are checked
    to be datetimes ([next_update] may be None) and are stored as passed. *)
Theorem C2_revocation_time_normalized_and_floored :
  (forall t, cert_status = PyCertStatus REVOKED ->
     revocation_time = PyDatetime t ->
     datetime_lt (_convert_to_naive_utc_time t) _EARLIEST_UTC_TIME = true ->
     exists e,
       OCSPResponseBuilder.add_response self cert issuer algorithm
         cert_status this_update next_update revocation_time
         revocation_reason s = (Raise e, s)) /\
  (forall new_builder s',
     OCSPResponseBuilder.add_response self cert issuer algorithm
       cert_status this_update next_update revocation_time
       revocation_reason s = (Return new_builder, s') ->
     exists a r,
       s' !! new_builder = Some (ResponseBuilderInstance a) /\
       Response._response a = Some r /\
       _this_update r = this_update /\
       isinstance_datetime this_update = true /\
       _next_update r = next_update /\
       (next_update = PyNone \/ isinstance_datetime next_update = true) /\
       (cert_status = PyCertStatus REVOKED ->
        exists t, revocation_time = PyDatetime t /\
          _revocation_time r = PyDatetime (_convert_to_naive_utc_time t) /\
          utcoffset (_convert_to_naive_utc_time t) = None /\
          datetime_lt (_convert_to_naive_utc_time t) _EARLIEST_UTC_TIME
            = false)).
Proof.
  split.
  - intros t -> -> Hfloor.
    destruct (single_response_revoked_raises cert issuer algorithm
                this_update next_update (PyDatetime t) revocation_reason)
      as [e He].
    { by intros t' [= <-]. }
    eapply add_response_raises, He.
  - intros new_builder s' H.
    apply add_response_returns in H as (a & r & Hnew & Hresp & Hinit).
    exists a, r. split; [done|]. split; [done|].
    apply single_response_returns in Hinit
      as ((_ & _ & _ & Hthis & Hnext) & (_ & _ & _ & -> & -> & _)
          & status & -> & Hs).
    repeat (split; [done|]).
    intros [= ->]. destruct Hs as (t & -> & -> & Hfloor & _).
    exists t. repeat split; try done. apply convert_is_naive.
Qed.
End AddResponse.

(** A revoked certificate with a revocation time and no reason: the
    constructor returns, and the reason of the record is None although the
    status is REVOKED. *)
Lemma C1_revoked_without_reason :
  OCSPResponseBuilder.add_response 3%nat
    (PyCertificate leaf_cert) (PyCertificate issuer_cert) (PyHash SHA256)
    (PyCertStatus REVOKED) (PyDatetime (datetime_of 2024 3 1)) PyNone
    (PyDatetime (datetime_of 2024 2 1)) PyNone fresh_store
  = (Return 4%nat,
     fresh_store ++
     [ResponseBuilderInstance
        {| Response._response :=
             Some {| _cert := PyCertificate leaf_cert;
                     _issuer := PyCertificate issuer_cert;
                     _algorithm := PyHash SHA256;
                     _this_update := PyDatetime (datetime_of 2024 3 1);
                     _next_update := PyNone;
                     _cert_status := PyCertStatus REVOKED;
                     _revocation_time := PyDatetime (datetime_of 2024 2 1);
                     _revocation_reason := PyNone |};
           Response._responder_id := None;
           Response._certs := None;
           Response._extensions := 1%nat |}]).
Proof. reflexivity. Qed.

Lemma C1_witness :
  (exists e,
     OCSPResponseBuilder.add_response 3%nat
       (PyCertificate leaf_cert) (PyCertificate issuer_cert) (PyHash SHA256)
       (PyCertStatus GOOD) (PyDatetime (datetime_of 2024 3 1)) PyNone
       (PyDatetime (datetime_of 2024 2 1)) PyNone fresh_store
     = (Raise e, fresh_store)) /\
  (exists e,
     OCSPResponseBuilder.add_response 3%nat
       (PyCertificate leaf_cert) (PyCertificate issuer_cert) (PyHash SHA256)
       (PyCertStatus REVOKED) (PyDatetime (datetime_of 2024 3 1)) PyNone
       PyNone (PyReasonFlags key_compromise) fresh_store
     = (Raise e, fresh_store)) /\
  (exists a r,
     (fresh_store ++
      [ResponseBuilderInstance
         {| Response._response :=
              Some {| _cert := PyCertificate leaf_cert;
                      _issuer := PyCertificate issuer_cert;
                      _algorithm := PyHash SHA256;
                      _this_update := PyDatetime (datetime_of 2024 3 1);
                      _next_update := PyNone;
                      _cert_status := PyCertStatus REVOKED;
                      _revocation_time := PyDatetime (datetime_of 2024 2 1);
                      _revocation_reason := PyReasonFlags key_compromise |};
            Response._responder_id := None;
            Response._certs := None;
            Response._extensions := 1%nat |}]) !! 4%nat
       = Some (ResponseBuilderInstance a) /\
     Response._response a = Some r /\
     _cert_status r = PyCertStatus REVOKED /\
     _revocation_reason r = PyReasonFlags key_compromise /\
     (PyDatetime (datetime_of 2024 2 1) = PyNone ->
      _revocation_time r = PyNone) /\
     (_revocation_time r <> PyNone <->
      PyCertStatus REVOKED = PyCertStatus REVOKED) /\
     (_revocation_reason r <> PyNone ->
      PyCertStatus REVOKED = PyCertStatus REVOKED)).
Proof.
  split; [|split].
  - apply (proj1 (C1_revocation_fields_follow_status fresh_store 3%nat
                    (PyCertificate leaf_cert) (PyCertificate issuer_cert)
                    (PyHash SHA256) (PyCertStatus GOOD)
                    (PyDatetime (datetime_of 2024 3 1)) PyNone
                    (PyDatetime (datetime_of 2024 2 1)) PyNone) GOOD).
    + reflexivity.
    + discriminate.
    + left. discriminate.
  - apply (proj1 (proj2 (C1_revocation_fields_follow_status fresh_store 3%nat
                    (PyCertificate leaf_cert) (PyCertificate issuer_cert)
                    (PyHash SHA256) (PyCertStatus REVOKED)
                    (PyDatetime (datetime_of 2024 3 1)) PyNone
                    PyNone (PyReasonFlags key_compromise))));
      reflexivity.
  - apply (proj2 (proj2 (C1_revocation_fields_follow_status fresh_store 3%nat
                    (PyCertificate leaf_cert) (PyCertificate issuer_cert)
                    (PyHash SHA256) (PyCertStatus REVOKED)
                    (PyDatetime (datetime_of 2024 3 1)) PyNone
                    (PyDatetime (datetime_of 2024 2 1))
                    (PyReasonFlags key_compromise)))).
    reflexivity.
Defined.

(** A [this_update] and a [next_update] in the year 1900, carrying a UTC
    offset: both are before the floor once converted, conversion would change
    them, and [add_response] returns a builder whose record holds them as
    they were passed. *)
Lemma C2_update_times_before_floor_accepted :
  datetime_lt (_convert_to_naive_utc_time aware_1900) _EARLIEST_UTC_TIME = true /\
  _convert_to_naive_utc_time aware_1900 <> aware_1900 /\
  OCSPResponseBuilder.add_response 3%nat
    (PyCertificate leaf_cert) (PyCertificate issuer_cert) (PyHash SHA256)
    (PyCertStatus GOOD) (PyDatetime aware_1900) (PyDatetime aware_1900)
    PyNone PyNone fresh_store
  = (Return 4%nat,
     fresh_store ++
     [ResponseBuilderInstance
        {| Response._response :=
             Some {| _cert := PyCertificate leaf_cert;
                     _issuer := PyCertificate issuer_cert;
                     _algorithm := PyHash SHA256;
                     _this_update := PyDatetime aware_1900;
                     _next_update := PyDatetime aware_1900;
                     _cert_status := PyCertStatus GOOD;
                     _revocation_time := PyNone;
                     _revocation_reason := PyNone |};
           Response._responder_id := None;
           Response._certs := None;
           Response._extensions := 1%nat |}]).
Proof. split; [reflexivity|]. split; [discriminate|reflexivity]. Qed.

Lemma C2_witness :
  (exists e,
     OCSPResponseBuilder.add_response 3%nat
       (PyCertificate leaf_cert) (PyCertificate issuer_cert) (PyHash SHA256)
       (PyCertStatus REVOKED) (PyDatetime (datetime_of 2024 3 1)) PyNone
       (PyDatetime aware_1900) PyNone fresh_store
     = (Raise e, fresh_store)) /\
  (exists a r,
     snd (OCSPResponseBuilder.add_response 3%nat
            (PyCertificate leaf_cert) (PyCertificate issuer_cert)
            (PyHash SHA256) (PyCertStatus REVOKED)
            (PyDatetime (datetime_of 2024 3 1)) PyNone
            (PyDatetime (datetime_of 2024 2 1)) PyNone fresh_store) !! 4%nat
       = Some (ResponseBuilderInstance a) /\
     Response._response a = Some r /\
     _this_update r = PyDatetime (datetime_of 2024 3 1) /\
     isinstance_datetime (PyDatetime (datetime_of 2024 3 1)) = true /\
     _next_update r = PyNone /\
     (PyNone = PyNone \/ isinstance_datetime PyNone = true) /\
     (PyCertStatus REVOKED = PyCertStatus REVOKED ->
      exists t, PyDatetime (datetime_of 2024 2 1) = PyDatetime t /\
        _revocation_time r = PyDatetime (_convert_to_naive_utc_time t) /\
        utcoffset (_convert_to_naive_utc_time t) = None /\
        datetime_lt (_convert_to_naive_utc_time t) _EARLIEST_UTC_TIME = false)).
Proof.
  split.
  - apply (proj1 (C2_revocation_time_normalized_and_floored fresh_store 3%nat
                    (PyCertificate leaf_cert) (PyCertificate issuer_cert)
                    (PyHash SHA256) (PyCertStatus REVOKED)
                    (PyDatetime (datetime_of 2024 3 1)) PyNone
                    (PyDatetime aware_1900) PyNone) aware_1900);
      reflexivity.
  - apply (proj2 (C2_revocation_time_normalized_and_floored fresh_store 3%nat
                    (PyCertificate leaf_cert) (PyCertificate issuer_cert)
                    (PyHash SHA256) (PyCertStatus REVOKED)
                    (PyDatetime (datetime_of 2024 3 1)) PyNone
                    (PyDatetime (datetime_of 2024 2 1)) PyNone) 4%nat).
    reflexivity.
Defined.

(** ** The closed set of hash algorithms *)

Lemma permitted_allowed (algorithm : pyobj) :
  permitted algorithm <-> isinstance_ALLOWED_HASHES algorithm = true.
Proof.
  rewrite allowed_hashes_five. unfold permitted. simpl.
  split; [intros [<-|[<-|[<-|[<-|[<-|[]]]]]]; tauto|].
  intros [->|[->|[->|[->| ->]]]]; tauto.
Qed.

Lemma not_permitted_rejected (algorithm : pyobj) :
  ~ permitted algorithm -> isinstance_ALLOWED_HASHES algorithm = false.
Proof.
  rewrite permitted_allowed.
  by destruct (isinstance_ALLOWED_HASHES algorithm).
Qed.

(** C3.  [_verify_algorithm] returns for exactly the five digests SHA1,
    SHA224, SHA256, SHA384 and SHA512 and raises the algorithm error for
    every other argument.  Both entry points run it: with an algorithm
    outside the set [add_certificate] and [add_response] raise whatever the
    receiver and the other arguments are, the error being the algorithm
    error as soon as the checks made before it pass; and neither raises the
    algorithm error for one of the five. *)
Theorem C3_algorithm_set_is_closed (algorithm : pyobj) :
  (_verify_algorithm algorithm = Return tt <-> permitted algorithm) /\
  (_verify_algorithm algorithm = Raise algorithm_error <->
   ~ permitted algorithm) /\
  (forall (s : store) (self : loc) (cert issuer : pyobj),
     (~ permitted algorithm ->
      exists e,
        OCSPRequestBuilder.add_certificate self cert issuer algorithm s
        = (Raise e, s)) /\
     (forall a, s !! self = Some (RequestBuilderInstance a) ->
        Request._request a = None -> ~ permitted algorithm ->
        OCSPRequestBuilder.add_certificate self cert issuer algorithm s
        = (Raise algorithm_error, s)) /\
     (permitted algorithm ->
      fst (OCSPRequestBuilder.add_certificate self cert issuer algorithm s)
      <> Raise algorithm_error)) /\
  (forall (s : store) (self : loc)
          (cert issuer cert_status this_update next_update
           revocation_time revocation_reason : pyobj),
     (~ permitted algorithm ->
      exists e,
        OCSPResponseBuilder.add_response self cert issuer algorithm
          cert_status this_update next_update revocation_time
          revocation_reason s = (Raise e, s)) /\
     (forall a, s !! self = Some (ResponseBuilderInstance a) ->
        Response._response a = None ->
        isinstance_Certificate cert = true ->
        isinstance_Certificate issuer = true ->
        ~ permitted algorithm ->
        OCSPResponseBuilder.add_response self cert issuer algorithm
          cert_status this_update next_update revocation_time
          revocation_reason s = (Raise algorithm_error, s)) /\
     (permitted algorithm ->
      fst (OCSPResponseBuilder.add_response self cert issuer algorithm
             cert_status this_update next_update revocation_time
             revocation_reason s) <> Raise algorithm_error)).
Proof.
  split; [|split; [|split]].
  - rewrite verify_algorithm_allowed. symmetry. apply permitted_allowed.
  - rewrite verify_algorithm_rejected, permitted_allowed.
    by destruct (isinstance_ALLOWED_HASHES algorithm).
  - intros s self cert issuer. split; [|split].
    + intros Hno%not_permitted_rejected. unfold_request.
      unfold _verify_algorithm. rewrite Hno. simpl.
      repeat case_match; simplify_eq; eauto.
    + intros a Hself Hslot Hno%not_permitted_rejected.
      rewrite (add_certificate_at _ _ _ _ _ _ Hself), Hslot, Hno. done.
    + intros Hyes%permitted_allowed. unfold_request.
      unfold _verify_algorithm. rewrite Hyes. simpl.
      repeat case_match; simplify_eq; simpl; discriminate.
  - intros s self cert issuer cert_status this_update next_update
      revocation_time revocation_reason. split; [|split].
    + intros Hno%not_permitted_rejected.
      destruct (_SingleResponse__init__ cert issuer algorithm cert_status
                  this_update next_update revocation_time revocation_reason)
        as [e|r] eqn:E.
      * eapply add_response_raises, E.
      * apply single_response_returns in E as ((_ & _ & Hyes & _) & _).
        congruence.
    + intros a Hself Hslot Hcert Hissuer Hno%not_permitted_rejected.
      rewrite (add_response_at _ _ _ _ _ _ _ _ _ _ _ Hself), Hslot.
      unfold _SingleResponse__init__, _verify_algorithm.
      rewrite Hcert, Hissuer, Hno. done.
    + intros Hyes%permitted_allowed. unfold_response.
      unfold _SingleResponse__init__, _verify_algorithm. rewrite Hyes.
      simpl. repeat case_match; simplify_eq; simpl; discriminate.
Qed.

Lemma C3_witness :
  OCSPRequestBuilder.add_certificate 2%nat (PyCertificate leaf_cert)
    (PyCertificate issuer_cert) (PyHash (OtherHash "MD5")) fresh_store
  = (Raise algorithm_error, fresh_store) /\
  OCSPResponseBuilder.add_response 3%nat (PyCertificate leaf_cert)
    (PyCertificate issuer_cert) (PyHash (OtherHash "SHA3_256"))
    (PyCertStatus GOOD) (PyDatetime (datetime_of 2024 3 1)) PyNone
    PyNone PyNone fresh_store
  = (Raise algorithm_error, fresh_store) /\
  fst (OCSPRequestBuilder.add_certificate 2%nat (PyCertificate leaf_cert)
         (PyCertificate issuer_cert) (PyHash SHA384) fresh_store)
  <> Raise algorithm_error.
Proof.
  assert (Hmd5 : ~ permitted (PyHash (OtherHash "MD5"))).
  { intros H. apply permitted_allowed in H. discriminate. }
  assert (Hsha3 : ~ permitted (PyHash (OtherHash "SHA3_256"))).
  { intros H. apply permitted_allowed in H. discriminate. }
  split; [|split].
  - eapply (proj1 (proj2 (proj1 (proj2 (proj2
             (C3_algorithm_set_is_closed (PyHash (OtherHash "MD5")))))
             fresh_store 2%nat (PyCertificate leaf_cert)
             (PyCertificate issuer_cert))));
      [reflexivity | reflexivity | exact Hmd5].
  - eapply (proj1 (proj2 (proj2 (proj2 (proj2
             (C3_algorithm_set_is_closed (PyHash (OtherHash "SHA3_256")))))
             fresh_store 3%nat (PyCertificate leaf_cert)
             (PyCertificate issuer_cert) (PyCertStatus GOOD)
             (PyDatetime (datetime_of 2024 3 1)) PyNone PyNone PyNone)));
      [reflexivity | reflexivity | reflexivity | reflexivity | exact Hsha3].
  - apply (proj2 (proj2 (proj1 (proj2 (proj2
             (C3_algorithm_set_is_closed (PyHash SHA384))))
             fresh_store 2%nat (PyCertificate leaf_cert)
             (PyCertificate issuer_cert)))).
    apply permitted_allowed. reflexivity.
Defined.

(** ** Duplicate detection *)

Lemma reject_duplicate_found (extension : Extension) (extensions : list Extension) :
  (exists e, In e extensions /\ ext_oid e = ext_oid extension) ->
  _reject_duplicate_extension extension extensions
  = Raise duplicate_extension_error.
Proof.
  induction extensions as [|e rest IH]; intros (e' & Hin & Hoid); [done|].
  simpl. destruct (String.eqb_spec (ext_oid e) (ext_oid extension)) as [|Hne];
    [done|].
  apply IH. destruct Hin as [->|Hin]; [done|]. eauto.
Qed.

Lemma reject_duplicate_absent (extension : Extension) (extensions : list Extension) :
  (forall e, In e extensions -> ext_oid e <> ext_oid extension) ->
  _reject_duplicate_extension extension extensions = Return tt.
Proof.
  induction extensions as [|e rest IH]; intros Hall; [done|].
  simpl. destruct (String.eqb_spec (ext_oid e) (ext_oid extension)) as [Heq|_].
  - destruct (Hall e); [by left | done].
  - apply IH. intros e' Hin. apply Hall. by right.
Qed.

(** ** The remaining operations, receiver by receiver *)

Lemma request_add_extension_at (s : store) (self : loc) (a : Request.attrs)
    (items : list Extension) (v : ExtensionType) (critical : bool) :
  s !! self = Some (RequestBuilderInstance a) ->
  s !! Request._extensions a = Some (ExtensionList items) ->
  OCSPRequestBuilder.add_extension self (PyExtensionType v) critical s =
    match _reject_duplicate_extension (make_extension v critical) items with
    | Raise e => (Raise e, s)
    | Return _ =>
        (Return (S (length s)),
         s ++ [ExtensionList (items ++ [make_extension v critical]);
               RequestBuilderInstance
                 {| Request._request := Request._request a;
                    Request._extensions := length s |}])
    end.
Proof.
  intros Hself Hlist. unfold_request. rewrite Hself, Hlist.
  destruct (_reject_duplicate_extension _ items); [done|].
  rewrite length_app, <- app_assoc. simpl. do 2 f_equal. lia.
Qed.

Lemma response_add_extension_at (s : store) (self : loc) (a : Response.attrs)
    (items : list Extension) (v : ExtensionType) (critical : bool) :
  s !! self = Some (ResponseBuilderInstance a) ->
  s !! Response._extensions a = Some (ExtensionList items) ->
  OCSPResponseBuilder.add_extension self (PyExtensionType v) critical s =
    match _reject_duplicate_extension (make_extension v critical) items with
    | Raise e => (Raise e, s)
    | Return _ =>
        (Return (S (length s)),
         s ++ [ExtensionList (items ++ [make_extension v critical]);
               ResponseBuilderInstance
                 {| Response._response := Response._response a;
                    Response._responder_id := Response._responder_id a;
                    Response._certs := Response._certs a;
                    Response._extensions := length s |}])
    end.
Proof.
  intros Hself Hlist. unfold_response. rewrite Hself, Hlist.
  destruct (_reject_duplicate_extension _ items); [done|].
  rewrite length_app, <- app_assoc. simpl. do 2 f_equal. lia.
Qed.

Lemma responder_id_at (s : store) (self : loc) (a : Response.attrs)
    (encoding responder_cert : pyobj) :
  s !! self = Some (ResponseBuilderInstance a) ->
  OCSPResponseBuilder.responder_id self encoding responder_cert s =
    match Response._responder_id a with
    | Some _ => (Raise (ValueError "responder_id can only be set once"), s)
    | None =>
        if negb (isinstance_Certificate responder_cert)
        then (Raise (TypeError "responder_cert must be a Certificate"), s)
        else
        if negb (isinstance_OCSPResponderEncoding encoding)
        then (Raise (TypeError
                "encoding must be an element from OCSPResponderEncoding"), s)
        else (Return (length s),
              s ++ [ResponseBuilderInstance
                      {| Response._response := Response._response a;
                         Response._responder_id :=
                           Some (responder_cert, encoding);
                         Response._certs := Response._certs a;
                         Response._extensions := Response._extensions a |}])
    end.
Proof.
  intros Hself. unfold_response. rewrite Hself.
  destruct (Response._responder_id a); [done|].
  destruct (isinstance_Certificate responder_cert); [|done].
  by destruct (isinstance_OCSPResponderEncoding encoding).
Qed.

Lemma certificates_at (s : store) (self : loc) (a : Response.attrs)
    (certs : list pyobj) :
  s !! self = Some (ResponseBuilderInstance a) ->
  OCSPResponseBuilder.certificates self certs s =
    match Response._certs a with
    | Some _ => (Raise (ValueError "certificates may only be set once"), s)
    | None =>
        match certs with
        | [] => (Raise (ValueError "certs must not be an empty list"),
                 s ++ [ObjectList []])
        | _ :: _ =>
            if forallb isinstance_Certificate certs
            then (Return (S (length s)),
                  s ++ [ObjectList certs;
                        ResponseBuilderInstance
                          {| Response._response := Response._response a;
                             Response._responder_id := Response._responder_id a;
                             Response._certs := Some (length s);
                             Response._extensions := Response._extensions a |}])
            else (Raise (TypeError "certs must be a list of Certificates"),
                  s ++ [ObjectList certs])
        end
    end.
Proof.
  intros Hself. unfold_response. rewrite Hself.
  destruct (Response._certs a); [done|].
  destruct certs as [|c certs]; [done|].
  cbn [length Nat.eqb]. destruct (forallb isinstance_Certificate (c :: certs));
    [|done].
  cbn [negb]. rewrite length_app, <- app_assoc. simpl. do 2 f_equal. lia.
Qed.

Lemma sign_at (s : store) (self : loc) (a : Response.attrs)
    (private_key algorithm : pyobj) :
  s !! self = Some (ResponseBuilderInstance a) ->
  OCSPResponseBuilder.sign self private_key algorithm s =
    match Response._response a, Response._responder_id a with
    | None, _ =>
        (Raise (ValueError "You must add a response before signing"), s)
    | Some _, None =>
        (Raise (ValueError "You must add a responder_id before signing"), s)
    | Some _, Some _ =>
        (Return (create_ocsp_response SUCCESSFUL (Some self)
                   private_key algorithm), s)
    end.
Proof.
  intros Hself. unfold_response. rewrite Hself.
  destruct (Response._response a); [|done].
  by destruct (Response._responder_id a).
Qed.

(** ** The certificate slot of a request builder *)

(** C4 (as amended).  On a request builder whose certificate slot is empty
    [build] raises ValueError.  When [add_certificate] returns a builder,
    [build] on that builder hands it to the backend, and a further
    [add_certificate] on that builder raises ValueError whatever its
    arguments.  When [add_certificate] raises, the store is as it was, so the
    slot of the receiver is still empty and a later call on it with a
    permitted algorithm and two certificates returns a builder. *)
Theorem C4_exactly_one_certificate (s : store) (self : loc) (a : Request.attrs) :
  s !! self = Some (RequestBuilderInstance a) ->
  (Request._request a = None ->
   OCSPRequestBuilder.build self s
   = (Raise (ValueError "You must add a certificate before building"), s)) /\
  (forall cert issuer algorithm b s1,
     OCSPRequestBuilder.add_certificate self cert issuer algorithm s
     = (Return b, s1) ->
     OCSPRequestBuilder.build b s1 = (Return (create_ocsp_request b), s1) /\
     forall cert' issuer' algorithm',
       OCSPRequestBuilder.add_certificate b cert' issuer' algorithm' s1
       = (Raise (ValueError "Only one certificate can be added to a request"),
          s1)) /\
  (forall cert issuer algorithm e s1,
     OCSPRequestBuilder.add_certificate self cert issuer algorithm s
     = (Raise e, s1) ->
     s1 = s /\
     (Request._request a = None ->
      forall cert' issuer' algorithm',
        permitted algorithm' ->
        isinstance_Certificate cert' = true ->
        isinstance_Certificate issuer' = true ->
        exists b s2,
          OCSPRequestBuilder.add_certificate self cert' issuer' algorithm' s1
          = (Return b, s2))).
Proof.
  intros Hself. split; [|split].
  - intros Hslot. by rewrite (build_at _ _ _ Hself), Hslot.
  - intros cert issuer algorithm b s1.
    rewrite (add_certificate_at _ _ _ _ _ _ Hself).
    intros H. repeat case_match; simplify_eq.
    pose proof (lookup_new s (RequestBuilderInstance
      {| Request._request := Some (cert, issuer, algorithm);
         Request._extensions := Request._extensions a |})) as Hnew.
    split.
    + by rewrite (build_at _ _ _ Hnew).
    + intros cert' issuer' algorithm'.
      by rewrite (add_certificate_at _ _ _ _ _ _ Hnew).
  - intros cert issuer algorithm e s1.
    rewrite (add_certificate_at _ _ _ _ _ _ Hself).
    intros H.
    assert (s1 = s) as -> by (repeat case_match; simplify_eq; done).
    split; [done|].
    intros Hslot cert' issuer' algorithm' Halg%permitted_allowed Hc Hi.
    rewrite (add_certificate_at _ _ _ _ _ _ Hself), Hslot, Halg, Hc, Hi.
    simpl. eauto.
Qed.

(** The first call fails on its algorithm; the second call, on the same
    builder, returns a new builder. *)
Lemma C4_second_call_after_failed_first :
  OCSPRequestBuilder.add_certificate 2%nat (PyCertificate leaf_cert)
    (PyCertificate issuer_cert) (PyHash (OtherHash "MD5")) fresh_store
  = (Raise algorithm_error, fresh_store) /\
  OCSPRequestBuilder.add_certificate 2%nat (PyCertificate leaf_cert)
    (PyCertificate issuer_cert) (PyHash SHA256) fresh_store
  = (Return 4%nat,
     fresh_store ++
     [RequestBuilderInstance
        {| Request._request :=
             Some (PyCertificate leaf_cert, PyCertificate issuer_cert,
                   PyHash SHA256);
           Request._extensions := 0%nat |}]).
Proof. split; reflexivity. Qed.

Lemma C4_witness :
  OCSPRequestBuilder.build 2%nat fresh_store
  = (Raise (ValueError "You must add a certificate before building"),
     fresh_store) /\
  (let s1 := snd (OCSPRequestBuilder.add_certificate 2%nat
                    (PyCertificate leaf_cert) (PyCertificate issuer_cert)
                    (PyHash SHA256) fresh_store) in
   OCSPRequestBuilder.build 4%nat s1 = (Return (create_ocsp_request 4%nat), s1) /\
   forall cert' issuer' algorithm',
     OCSPRequestBuilder.add_certificate 4%nat cert' issuer' algorithm' s1
     = (Raise (ValueError "Only one certificate can be added to a request"),
        s1)).
Proof.
  pose proof (C4_exactly_one_certificate fresh_store 2%nat
                {| Request._request := None; Request._extensions := 0%nat |}
                eq_refl) as (Hbuild & Hadd & _).
  split.
  - apply Hbuild. reflexivity.
  - apply (Hadd (PyCertificate leaf_cert) (PyCertificate issuer_cert)
             (PyHash SHA256) 4%nat). reflexivity.
Defined.

(** ** Occupied slots are checked first *)

(** C10.  When a once-only slot of the receiver is occupied, the call raises
    the error of that slot for every choice of the new arguments and leaves
    the store as it was: [add_certificate] with a certificate present,
    [add_response] with a response present, [responder_id] with a responder
    id present, [certificates] with a certificate list present. *)
Theorem C10_occupancy_checked_before_arguments (s : store) (self : loc) :
  (forall a, s !! self = Some (RequestBuilderInstance a) ->
     Request._request a <> None ->
     forall cert issuer algorithm,
       OCSPRequestBuilder.add_certificate self cert issuer algorithm s
       = (Raise (ValueError "Only one certificate can be added to a request"),
          s)) /\
  (forall a, s !! self = Some (ResponseBuilderInstance a) ->
     Response._response a <> None ->
     forall cert issuer algorithm cert_status this_update next_update
            revocation_time revocation_reason,
       OCSPResponseBuilder.add_response self cert issuer algorithm cert_status
         this_update next_update revocation_time revocation_reason s
       = (Raise (ValueError "Only one response per OCSPResponse."), s)) /\
  (forall a, s !! self = Some (ResponseBuilderInstance a) ->
     Response._responder_id a <> None ->
     forall encoding responder_cert,
       OCSPResponseBuilder.responder_id self encoding responder_cert s
       = (Raise (ValueError "responder_id can only be set once"), s)) /\
  (forall a, s !! self = Some (ResponseBuilderInstance a) ->
     Response._certs a <> None ->
     forall certs,
       OCSPResponseBuilder.certificates self certs s
       = (Raise (ValueError "certificates may only be set once"), s)).
Proof.
  split; [|split; [|split]].
  - intros a Hself Hslot cert issuer algorithm.
    rewrite (add_certificate_at _ _ _ _ _ _ Hself).
    by destruct (Request._request a).
  - intros a Hself Hslot cert issuer algorithm cert_status this_update
      next_update revocation_time revocation_reason.
    rewrite (add_response_at _ _ _ _ _ _ _ _ _ _ _ Hself).
    by destruct (Response._response a).
  - intros a Hself Hslot encoding responder_cert.
    rewrite (responder_id_at _ _ _ _ _ Hself).
    by destruct (Response._responder_id a).
  - intros a Hself Hslot certs.
    rewrite (certificates_at _ _ _ _ Hself).
    by destruct (Response._certs a).
Qed.

Lemma C10_witness :
  OCSPRequestBuilder.add_certificate 4%nat (PyInt 0) PyNone
    (PyHash (OtherHash "MD5")) built_store
  = (Raise (ValueError "Only one certificate can be added to a request"),
     built_store) /\
  OCSPResponseBuilder.add_response 8%nat (PyInt 0) PyNone (PyStr "sha")
    PyNone PyNone (PyInt 1) (PyInt 2) (PyInt 3) built_store
  = (Raise (ValueError "Only one response per OCSPResponse."), built_store) /\
  OCSPResponseBuilder.responder_id 8%nat PyNone PyNone built_store
  = (Raise (ValueError "responder_id can only be set once"), built_store) /\
  OCSPResponseBuilder.certificates 8%nat [] built_store
  = (Raise (ValueError "certificates may only be set once"), built_store).
Proof.
  split; [|split; [|split]].
  - eapply (proj1 (C10_occupancy_checked_before_arguments built_store 4%nat));
      [reflexivity | discriminate].
  - eapply (proj1 (proj2
              (C10_occupancy_checked_before_arguments built_store 8%nat)));
      [reflexivity | discriminate].
  - eapply (proj1 (proj2 (proj2
              (C10_occupancy_checked_before_arguments built_store 8%nat))));
      [reflexivity | discriminate].
  - eapply (proj2 (proj2 (proj2
              (C10_occupancy_checked_before_arguments built_store 8%nat))));
      [reflexivity | discriminate].
Defined.

(** ** Signing and unsuccessful responses *)

(** C7.  [sign] raises ValueError when the builder has no response, and when
    it has no responder id; with both set it hands the builder, the key and
    the algorithm to the backend with status SUCCESSFUL and leaves the store
    as it was.  Among [build], [sign] and [build_unsuccessful], only [sign]
    makes a backend call for a response with status SUCCESSFUL. *)
Theorem C7_sign_needs_response_and_responder :
  (forall (s : store) (self : loc) (a : Response.attrs)
          (private_key algorithm : pyobj),
     s !! self = Some (ResponseBuilderInstance a) ->
     (Response._response a = None ->
      OCSPResponseBuilder.sign self private_key algorithm s
      = (Raise (ValueError "You must add a response before signing"), s)) /\
     (Response._response a <> None -> Response._responder_id a = None ->
      OCSPResponseBuilder.sign self private_key algorithm s
      = (Raise (ValueError "You must add a responder_id before signing"), s)) /\
     (Response._responder_id a = None ->
      exists msg,
        OCSPResponseBuilder.sign self private_key algorithm s
        = (Raise (ValueError msg), s)) /\
     (Response._response a <> None -> Response._responder_id a <> None ->
      OCSPResponseBuilder.sign self private_key algorithm s
      = (Return (create_ocsp_response SUCCESSFUL (Some self)
                   private_key algorithm), s))) /\
  (forall (f : finisher) (s s' : store) (builder : option loc)
          (private_key algorithm : pyobj),
     finish f s
     = (Return (create_ocsp_response SUCCESSFUL builder private_key algorithm),
        s') ->
     exists self, f = Response_sign self private_key algorithm /\
                  builder = Some self).
Proof.
  split.
  - intros s self a private_key algorithm Hself.
    rewrite (sign_at _ _ _ _ _ Hself).
    destruct (Response._response a), (Response._responder_id a);
      repeat split; intros; try done; eauto.
  - intros [self|self private_key' algorithm'|response_status] s s'
      builder private_key algorithm; simpl.
    + unfold_request. intros H. repeat case_match; simplify_eq.
    + unfold_response. intros H. repeat case_match; simplify_eq. eauto.
    + unfold_response. intros H. repeat case_match; simplify_eq.
Qed.

Lemma C7_witness :
  OCSPResponseBuilder.sign 3%nat (PyPrivateKey "responder key") (PyHash SHA256)
    built_store
  = (Raise (ValueError "You must add a response before signing"),
     built_store) /\
  OCSPResponseBuilder.sign 5%nat (PyPrivateKey "responder key") (PyHash SHA256)
    built_store
  = (Raise (ValueError "You must add a responder_id before signing"),
     built_store) /\
  OCSPResponseBuilder.sign 8%nat (PyPrivateKey "responder key") (PyHash SHA256)
    built_store
  = (Return (create_ocsp_response SUCCESSFUL (Some 8%nat)
               (PyPrivateKey "responder key") (PyHash SHA256)), built_store).
Proof.
  split; [|split].
  - apply (proj1 (proj1 C7_sign_needs_response_and_responder
                    built_store 3%nat _ _ _ eq_refl)). reflexivity.
  - apply (proj1 (proj2 (proj1 C7_sign_needs_response_and_responder
                    built_store 5%nat _ _ _ eq_refl)));
      [discriminate | reflexivity].
  - apply (proj2 (proj2 (proj2 (proj1 C7_sign_needs_response_and_responder
                    built_store 8%nat _ _ _ eq_refl)))); discriminate.
Defined.

(** C8.  [build_unsuccessful] has no receiver and behaves the same in every
    store.  It raises exactly when its argument is SUCCESSFUL (ValueError) or
    is not a response status (TypeError).  For MALFORMED_REQUEST,
    INTERNAL_ERROR, TRY_LATER, SIG_REQUIRED and UNAUTHORIZED it makes the
    backend call with that status, no builder, no private key and no
    algorithm, and allocates nothing. *)
Theorem C8_build_unsuccessful (response_status : pyobj) (s : store) :
  (is_Return (fst (OCSPResponseBuilder.build_unsuccessful response_status s))
   = false <->
   response_status = PyResponseStatus SUCCESSFUL \/
   isinstance_OCSPResponseStatus response_status = false) /\
  (response_status = PyResponseStatus SUCCESSFUL ->
   OCSPResponseBuilder.build_unsuccessful response_status s
   = (Raise (ValueError "response_status cannot be SUCCESSFUL"), s)) /\
  (isinstance_OCSPResponseStatus response_status = false ->
   OCSPResponseBuilder.build_unsuccessful response_status s
   = (Raise (TypeError
        "response_status must be an item from OCSPResponseStatus"), s)) /\
  (forall status,
     In status [MALFORMED_REQUEST; INTERNAL_ERROR; TRY_LATER; SIG_REQUIRED;
                UNAUTHORIZED] ->
     response_status = PyResponseStatus status ->
     OCSPResponseBuilder.build_unsuccessful response_status s
     = (Return (create_ocsp_response status None PyNone PyNone), s)) /\
  (forall status, status <> SUCCESSFUL ->
     In status [MALFORMED_REQUEST; INTERNAL_ERROR; TRY_LATER; SIG_REQUIRED;
                UNAUTHORIZED]).
Proof.
  split; [|split; [|split; [|split]]].
  - unfold_response.
    destruct response_status as [| | | | | | |status| | | |]; simpl;
      try (split; [by right | done]).
    destruct status; simpl; split; intros H; try done; try (by left);
      destruct H; done.
  - by intros ->.
  - by destruct response_status.
  - intros status Hin ->. simpl in Hin.
    destruct Hin as [<-|[<-|[<-|[<-|[<-|[]]]]]]; reflexivity.
  - intros status Hne. destruct status; simpl; tauto.
Qed.

Lemma C8_witness :
  OCSPResponseBuilder.build_unsuccessful (PyResponseStatus TRY_LATER) []
  = (Return (create_ocsp_response TRY_LATER None PyNone PyNone), []) /\
  OCSPResponseBuilder.build_unsuccessful (PyResponseStatus SUCCESSFUL) []
  = (Raise (ValueError "response_status cannot be SUCCESSFUL"), []) /\
  OCSPResponseBuilder.build_unsuccessful (PyInt 3) []
  = (Raise (TypeError
       "response_status must be an item from OCSPResponseStatus"), []).
Proof.
  split; [|split].
  - apply (proj1 (proj2 (proj2 (proj2
             (C8_build_unsuccessful (PyResponseStatus TRY_LATER) []))))
             TRY_LATER); [simpl; tauto | reflexivity].
  - apply (proj1 (proj2
             (C8_build_unsuccessful (PyResponseStatus SUCCESSFUL) []))).
    reflexivity.
  - apply (proj1 (proj2 (proj2 (C8_build_unsuccessful (PyInt 3) [])))).
    reflexivity.
Defined.

(** ** Extensions *)

Lemma lookup_new_first (s : store) (o1 o2 : object) :
  (s ++ [o1; o2]) !! length s = Some o1.
Proof. by rewrite list_lookup_middle. Qed.

Lemma lookup_new_second (s : store) (o1 o2 : object) :
  (s ++ [o1; o2]) !! S (length s) = Some o2.
Proof.
  change (s ++ [o1; o2]) with (s ++ [o1] ++ [o2]). rewrite app_assoc.
  rewrite list_lookup_middle; [done|]. rewrite length_app. simpl. lia.
Qed.

(** What a defined view says about the store. *)
Lemma view_Some (s : store) (l : loc) (bv : builder_view) :
  view s l = Some bv ->
  (exists a exts,
     s !! l = Some (RequestBuilderInstance a) /\
     s !! Request._extensions a = Some (ExtensionList exts) /\
     bv = RequestBuilderView (Request._request a) exts) \/
  (exists a exts,
     s !! l = Some (ResponseBuilderInstance a) /\
     s !! Response._extensions a = Some (ExtensionList exts) /\
     match Response._certs a with
     | None => view_certs bv = None
     | Some c => exists items, s !! c = Some (ObjectList items) /\
                   view_certs bv = Some items
     end /\
     bv = ResponseBuilderView (Response._response a)
            (Response._responder_id a) (view_certs bv) exts).
Proof.
  unfold view, extensions_at, items_at. intros H.
  destruct (s !! l) as [[| |a|a]|] eqn:Hl; try done.
  - left. repeat case_match; simplify_eq. eauto.
  - right. destruct (s !! Response._extensions a) as [[exts| | |]|] eqn:Hx;
      try done.
    destruct (Response._certs a) as [c|] eqn:Hc.
    + destruct (s !! c) as [[|items| |]|] eqn:Hi; try done.
      simplify_eq. exists a, exts. rewrite Hc. simpl. eauto 10.
    + simplify_eq. exists a, exts. rewrite Hc. simpl. eauto 10.
Qed.

Lemma add_extension_view (s : store) (self : loc) (bv : builder_view)
    (v : ExtensionType) (critical : bool) :
  view s self = Some bv ->
  match _reject_duplicate_extension (make_extension v critical)
          (view_extensions bv) with
  | Raise e =>
      invoke (add_extension_call (kind_of bv) v critical) self s = (Raise e, s)
  | Return _ =>
      exists s',
        invoke (add_extension_call (kind_of bv) v critical) self s
        = (Return (S (length s)), s') /\
        view s' (S (length s))
        = Some (append_extensions bv [make_extension v critical])
  end.
Proof.
  intros Hview.
  destruct (view_Some _ _ _ Hview)
    as [(a & exts & Hself & Hlist & ->)|(a & exts & Hself & Hlist & Hcerts & ->)];
    cbn [kind_of add_extension_call invoke view_extensions append_extensions].
  - rewrite (request_add_extension_at _ _ _ _ _ _ Hself Hlist).
    destruct (_reject_duplicate_extension _ exts); [done|].
    eexists. split; [done|].
    unfold view, extensions_at.
    rewrite lookup_new_second. simpl. by rewrite lookup_new_first.
  - rewrite (response_add_extension_at _ _ _ _ _ _ Hself Hlist).
    destruct (_reject_duplicate_extension _ exts); [done|].
    eexists. split; [done|].
    unfold view, extensions_at, items_at.
    rewrite lookup_new_second. simpl. rewrite lookup_new_first.
    destruct (Response._certs a) as [c|]; [|by rewrite Hcerts].
    destruct Hcerts as (items & Hc & ->).
    by rewrite (lookup_kept _ _ _ _ Hc).
Qed.

Lemma kind_of_append (bv : builder_view) (new : list Extension) :
  kind_of (append_extensions bv new) = kind_of bv.
Proof. by destruct bv. Qed.

Lemma view_extensions_append (bv : builder_view) (new : list Extension) :
  view_extensions (append_extensions bv new) = view_extensions bv ++ new.
Proof. by destruct bv. Qed.

Lemma append_extensions_app (bv : builder_view) (xs ys : list Extension) :
  append_extensions (append_extensions bv xs) ys
  = append_extensions bv (xs ++ ys).
Proof. destruct bv; simpl; by rewrite <- app_assoc. Qed.

Lemma append_extensions_nil (bv : builder_view) :
  append_extensions bv [] = bv.
Proof. destruct bv; simpl; by rewrite app_nil_r. Qed.

(** A chain of [add_extension] calls whose identifiers are new and pairwise
    distinct returns a builder with the extensions appended in call order. *)
Lemma add_extension_chain (new : list (ExtensionType * bool)) :
  forall (s : store) (self : loc) (bv : builder_view),
    view s self = Some bv ->
    NoDup (map (fun p => oid (fst p)) new) ->
    (forall e p, In e (view_extensions bv) -> In p new ->
       ext_oid e <> oid (fst p)) ->
    exists b s',
      chain (map (fun p => add_extension_call (kind_of bv) (fst p) (snd p)) new)
        self s = (Return b, s') /\
      view s' b
      = Some (append_extensions bv
                (map (fun p => make_extension (fst p) (snd p)) new)).
Proof.
  induction new as [|[v c] rest IH]; intros s self bv Hview Hnodup Hfresh.
  - exists self, s. split; [done|]. simpl. by rewrite append_extensions_nil.
  - simpl in Hnodup. apply NoDup_cons in Hnodup as [Hv Hrest].
    pose proof (add_extension_view s self bv v c Hview) as Hstep.
    rewrite reject_duplicate_absent in Hstep.
    2:{ intros e He. apply (Hfresh e (v, c) He). by left. }
    destruct Hstep as (s1 & Hcall & Hview1).
    destruct (IH s1 (S (length s)) _ Hview1 Hrest) as (b & s' & Hchain & Hb).
    { intros e p. rewrite view_extensions_append.
      intros [He|[<-|[]]]%in_app_or Hp.
      - apply (Hfresh e p He). by right.
      - simpl. intros Heq. apply Hv. rewrite Heq.
        apply list_elem_of_In, (in_map (fun p => oid (fst p))), Hp. }
    exists b, s'. split.
    + cbn [map chain fst snd]. unfold bind. rewrite Hcall.
      rewrite kind_of_append in Hchain. exact Hchain.
    + rewrite Hb, append_extensions_app. done.
Qed.

(** C5.  For a request or a response builder whose lists are in the store:
    [add_extension] with an identifier that an extension of the builder
    already has raises, whatever the criticality and the value, and leaves
    the store as it was; so after one [add_extension] has returned a builder,
    a second one on that builder with the same identifier raises.  A chain of
    [add_extension] calls whose identifiers are pairwise distinct and differ
    from those already present returns a builder whose extension list is the
    old list followed by the new extensions in the order of the calls. *)
Theorem C5_extension_identifiers_distinct
    (s : store) (self : loc) (bv : builder_view) :
  view s self = Some bv ->
  (forall v critical,
     (exists e, In e (view_extensions bv) /\ ext_oid e = oid v) ->
     invoke (add_extension_call (kind_of bv) v critical) self s
     = (Raise duplicate_extension_error, s)) /\
  (forall v1 critical1 v2 critical2 b s1,
     invoke (add_extension_call (kind_of bv) v1 critical1) self s
     = (Return b, s1) ->
     oid v2 = oid v1 ->
     invoke (add_extension_call (kind_of bv) v2 critical2) b s1
     = (Raise duplicate_extension_error, s1)) /\
  (forall new : list (ExtensionType * bool),
     NoDup (map (fun p => oid (fst p)) new) ->
     (forall e p, In e (view_extensions bv) -> In p new ->
        ext_oid e <> oid (fst p)) ->
     exists b s',
       chain (map (fun p => add_extension_call (kind_of bv) (fst p) (snd p))
                new) self s = (Return b, s') /\
       view s' b
       = Some (append_extensions bv
                 (map (fun p => make_extension (fst p) (snd p)) new))).
Proof.
  intros Hview. split; [|split].
  - intros v critical Hdup.
    pose proof (add_extension_view s self bv v critical Hview) as Hstep.
    by rewrite reject_duplicate_found in Hstep.
  - intros v1 critical1 v2 critical2 b s1 Hcall Hoid.
    pose proof (add_extension_view s self bv v1 critical1 Hview) as Hstep.
    destruct (_reject_duplicate_extension _ (view_extensions bv));
      [congruence|].
    destruct Hstep as (s1' & Hcall' & Hview1).
    rewrite Hcall in Hcall'. injection Hcall' as -> <-.
    pose proof (add_extension_view _ _ _ v2 critical2 Hview1) as Hstep.
    rewrite reject_duplicate_found, kind_of_append in Hstep; [done|].
    exists (make_extension v1 critical1). split; [|by simpl].
    rewrite view_extensions_append. apply in_or_app. right. by left.
  - intros new. by apply add_extension_chain.
Qed.

Lemma C5_witness :
  (exists b s',
     chain [Request_add_extension (PyExtensionType nonce_ext) true;
            Request_add_extension (PyExtensionType sct_ext) false]
       2%nat fresh_store = (Return b, s') /\
     view s' b
     = Some (RequestBuilderView None
               [make_extension nonce_ext true; make_extension sct_ext false])) /\
  (exists b s',
     chain [Response_add_extension (PyExtensionType nonce_ext) true;
            Response_add_extension (PyExtensionType sct_ext) false]
       3%nat fresh_store = (Return b, s') /\
     view s' b
     = Some (ResponseBuilderView None None None
               [make_extension nonce_ext true; make_extension sct_ext false])) /\
  (let s1 := snd (OCSPRequestBuilder.add_extension 2%nat
                    (PyExtensionType nonce_ext) true fresh_store) in
   OCSPRequestBuilder.add_extension 5%nat (PyExtensionType other_nonce_ext)
     false s1 = (Raise duplicate_extension_error, s1)).
Proof.
  assert (Hnodup : NoDup (map (fun p => oid (fst p))
                            [(nonce_ext, true); (sct_ext, false)])).
  { apply NoDup_cons. split.
    - intros [H|H]%list_elem_of_In; [discriminate | destruct H].
    - apply NoDup_singleton. }
  split; [|split].
  - apply (proj2 (proj2 (C5_extension_identifiers_distinct fresh_store 2%nat
                           (RequestBuilderView None []) eq_refl))
             [(nonce_ext, true); (sct_ext, false)] Hnodup).
    intros e p [].
  - apply (proj2 (proj2 (C5_extension_identifiers_distinct fresh_store 3%nat
                           (ResponseBuilderView None None None []) eq_refl))
             [(nonce_ext, true); (sct_ext, false)] Hnodup).
    intros e p [].
  - apply (proj1 (proj2 (C5_extension_identifiers_distinct fresh_store 2%nat
                           (RequestBuilderView None []) eq_refl))
             nonce_ext true other_nonce_ext false 5%nat);
      reflexivity.
Defined.

(** ** The certificate list of a response builder *)

(** A call other than [certificates] that returns a builder from a response
    builder returns a response builder with the same [_certs]. *)
Lemma other_calls_keep_certs (c : call) (s s' : store) (self b : loc)
    (a : Response.attrs) :
  s !! self = Some (ResponseBuilderInstance a) ->
  is_certificates c = false ->
  invoke c self s = (Return b, s') ->
  exists a', s' !! b = Some (ResponseBuilderInstance a') /\
             Response._certs a' = Response._certs a.
Proof.
  intros Hself Hc. destruct c; try discriminate; cbn [invoke];
    unfold_request; unfold_response; try rewrite Hself; intros H;
    repeat case_match; simplify_eq;
    (eexists; split; [apply lookup_new | done]).
Qed.

Lemma chain_keeps_certs (calls : list call) :
  forall (s s' : store) (self b : loc) (a : Response.attrs),
    s !! self = Some (ResponseBuilderInstance a) ->
    forallb (fun c => negb (is_certificates c)) calls = true ->
    chain calls self s = (Return b, s') ->
    exists a', s' !! b = Some (ResponseBuilderInstance a') /\
               Response._certs a' = Response._certs a.
Proof.
  induction calls as [|c rest IH]; intros s s' self b a Hself Hall Hchain.
  - injection Hchain as <- <-. eauto.
  - simpl in Hall. apply andb_prop in Hall as [Hc Hrest].
    apply negb_true_iff in Hc.
    simpl in Hchain. unfold bind in Hchain.
    destruct (invoke c self s) as [[e|b1] s1] eqn:Hcall; [discriminate|].
    destruct (other_calls_keep_certs _ _ _ _ _ _ Hself Hc Hcall)
      as (a1 & Hb1 & Hcerts1).
    destruct (IH _ _ _ _ _ Hb1 Hrest Hchain) as (a' & Hb & Hcerts).
    exists a'. split; [done|]. congruence.
Qed.

(** C6.  On a response builder, [certificates] raises ValueError when a list
    is already set, and when the list is unset and the collection is empty.
    With the list unset and a non-empty collection of certificates it returns
    a new builder that refers to a new list holding the items in the order
    given, its other attributes being those of the receiver.  A builder made
    by [OCSPResponseBuilder()] and any chain of calls without [certificates]
    has [_certs] equal to None. *)
Theorem C6_certificates_once_and_non_empty :
  (forall (s : store) (self : loc) (a : Response.attrs),
     s !! self = Some (ResponseBuilderInstance a) ->
     (Response._certs a <> None ->
      forall certs,
        OCSPResponseBuilder.certificates self certs s
        = (Raise (ValueError "certificates may only be set once"), s)) /\
     (Response._certs a = None ->
      OCSPResponseBuilder.certificates self [] s
      = (Raise (ValueError "certs must not be an empty list"),
         s ++ [ObjectList []])) /\
     (Response._certs a = None ->
      forall certs, certs <> [] ->
        forallb isinstance_Certificate certs = true ->
        OCSPResponseBuilder.certificates self certs s
        = (Return (S (length s)),
           s ++ [ObjectList certs;
                 ResponseBuilderInstance
                   {| Response._response := Response._response a;
                      Response._responder_id := Response._responder_id a;
                      Response._certs := Some (length s);
                      Response._extensions := Response._extensions a |}]))) /\
  (forall (s s' : store) (calls : list call) (b : loc),
     forallb (fun c => negb (is_certificates c)) calls = true ->
     chain calls (length s) (snd (new_OCSPResponseBuilder s)) = (Return b, s') ->
     exists a, s' !! b = Some (ResponseBuilderInstance a) /\
               Response._certs a = None).
Proof.
  split.
  - intros s self a Hself. split; [|split].
    + intros Hset certs. rewrite (certificates_at _ _ _ _ Hself).
      by destruct (Response._certs a).
    + intros Hunset. by rewrite (certificates_at _ _ _ _ Hself), Hunset.
    + intros Hunset certs Hne Hall.
      rewrite (certificates_at _ _ _ _ Hself), Hunset, Hall.
      by destruct certs.
  - intros s s' calls b Hall Hchain.
    eapply (chain_keeps_certs calls _ _ _ _ _ (lookup_new s _) Hall Hchain).
Qed.

Lemma C6_witness :
  OCSPResponseBuilder.certificates 8%nat [PyCertificate issuer_cert] built_store
  = (Raise (ValueError "certificates may only be set once"), built_store) /\
  OCSPResponseBuilder.certificates 3%nat [] fresh_store
  = (Raise (ValueError "certs must not be an empty list"),
     fresh_store ++ [ObjectList []]) /\
  OCSPResponseBuilder.certificates 3%nat
    [PyCertificate issuer_cert; PyCertificate leaf_cert] fresh_store
  = (Return 5%nat,
     fresh_store ++
     [ObjectList [PyCertificate issuer_cert; PyCertificate leaf_cert];
      ResponseBuilderInstance
        {| Response._response := None;
           Response._responder_id := None;
           Response._certs := Some 4%nat;
           Response._extensions := 1%nat |}]) /\
  (exists a,
     snd (chain [Response_responder_id (PyResponderEncoding NAME)
                   (PyCertificate issuer_cert);
                 Response_add_extension (PyExtensionType nonce_ext) false]
            2%nat (snd (new_OCSPResponseBuilder module_store))) !! 5%nat
     = Some (ResponseBuilderInstance a) /\
     Response._certs a = None).
Proof.
  split; [|split; [|split]].
  - apply (proj1 (proj1 C6_certificates_once_and_non_empty
                    built_store 8%nat _ eq_refl)). discriminate.
  - apply (proj1 (proj2 (proj1 C6_certificates_once_and_non_empty
                    fresh_store 3%nat _ eq_refl))). reflexivity.
  - apply (proj2 (proj2 (proj1 C6_certificates_once_and_non_empty
                    fresh_store 3%nat _ eq_refl)));
      [reflexivity | discriminate | reflexivity].
  - apply (proj2 C6_certificates_once_and_non_empty module_store _
             [Response_responder_id (PyResponderEncoding NAME)
                (PyCertificate issuer_cert);
              Response_add_extension (PyExtensionType nonce_ext) false]
             5%nat);
      reflexivity.
Defined.

(** ** Builders are persistent values *)

Lemma view_request (t : store) (l x : loc)
    (request : option (pyobj * pyobj * pyobj)) (exts : list Extension) :
  t !! l = Some (RequestBuilderInstance
                   {| Request._request := request;
                      Request._extensions := x |}) ->
  t !! x = Some (ExtensionList exts) ->
  view t l = Some (RequestBuilderView request exts).
Proof. intros Hl Hx. unfold view, extensions_at. rewrite Hl. simpl. by rewrite Hx. Qed.

Lemma view_response (t : store) (l x : loc)
    (response : option _SingleResponse) (rid : option (pyobj * pyobj))
    (oc : option loc) (exts : list Extension) (cv : option (list pyobj)) :
  t !! l = Some (ResponseBuilderInstance
                   {| Response._response := response;
                      Response._responder_id := rid;
                      Response._certs := oc;
                      Response._extensions := x |}) ->
  t !! x = Some (ExtensionList exts) ->
  match oc with
  | None => cv = None
  | Some c => exists items, t !! c = Some (ObjectList items) /\ cv = Some items
  end ->
  view t l = Some (ResponseBuilderView response rid cv exts).
Proof.
  intros Hl Hx Hc. unfold view, extensions_at, items_at. rewrite Hl. simpl.
  rewrite Hx. destruct oc as [c|]; [|by subst].
  destruct Hc as (items & -> & ->). done.
Qed.

Lemma certs_kept (s k : store) (oc : option loc) (cv : option (list pyobj)) :
  match oc with
  | None => cv = None
  | Some c => exists items, s !! c = Some (ObjectList items) /\ cv = Some items
  end ->
  match oc with
  | None => cv = None
  | Some c =>
      exists items, (s ++ k) !! c = Some (ObjectList items) /\ cv = Some items
  end.
Proof.
  destruct oc as [c|]; [|done]. intros (items & Hc & ->).
  exists items. split; [by apply lookup_kept | done].
Qed.

(** Every operation only allocates. *)
Lemma invoke_grows (c : call) (s s' : store) (self : loc) (r : result loc) :
  invoke c self s = (r, s') -> exists k, s' = s ++ k.
Proof.
  destruct c; cbn [invoke]; unfold_request; unfold_response; intros H;
    repeat case_match; simplify_eq;
    first [ by exists []; rewrite app_nil_r
          | by eexists
          | by eexists; rewrite <- app_assoc ].
Qed.

(** A returned builder is an object that was not in the store before. *)
Lemma invoke_returns_new (c : call) (s s' : store) (self b : loc) :
  invoke c self s = (Return b, s') ->
  s !! b = None /\ exists o, s' !! b = Some o /\ is_builder o = true.
Proof.
  destruct c; cbn [invoke]; unfold_request; unfold_response; intros H;
    repeat case_match; simplify_eq;
    (split; [apply lookup_ge_None; rewrite ?length_app; simpl; lia
            | eexists; split; [apply lookup_new | done]]).
Qed.

(** A call that returns a builder from a receiver whose lists are in the
    store returns a builder with the same contents in every larger store. *)
Lemma invoke_in_larger_store (c : call) (s k s1 : store) (self b : loc)
    (bv : builder_view) :
  view s self = Some bv ->
  invoke c self s = (Return b, s1) ->
  exists b' s1' bv1,
    invoke c self (s ++ k) = (Return b', s1') /\
    view s1 b = Some bv1 /\ view s1' b' = Some bv1.
Proof.
  intros Hview Hcall.
  destruct (view_Some _ _ _ Hview)
    as [(a & exts & Hself & Hlist & ->)|(a & exts & Hself & Hlist & Hcerts & Hbv)].
  - pose proof (lookup_kept _ k _ _ Hself) as Hself'.
    pose proof (lookup_kept _ k _ _ Hlist) as Hlist'.
    destruct c; cbn [invoke] in *;
      try (exfalso; revert Hcall; unfold_response; try destruct extval;
           rewrite ?Hself; discriminate).
    + rewrite (add_certificate_at _ _ _ _ _ _ Hself) in Hcall.
      rewrite (add_certificate_at _ _ _ _ _ _ Hself').
      repeat case_match; simplify_eq.
      eexists _, _, _. split; [done|].
      split; (eapply view_request; [apply lookup_new|]); simpl;
        by apply lookup_kept.
    + destruct extval as [| | | | | | | | | |v|]; try discriminate.
      rewrite (request_add_extension_at _ _ _ _ _ _ Hself Hlist) in Hcall.
      rewrite (request_add_extension_at _ _ _ _ _ _ Hself' Hlist').
      repeat case_match; simplify_eq.
      eexists _, _, _. split; [done|].
      split; (eapply view_request; [apply lookup_new_second|]); simpl;
        apply lookup_new_first.
  - pose proof (lookup_kept _ k _ _ Hself) as Hself'.
    pose proof (lookup_kept _ k _ _ Hlist) as Hlist'.
    pose proof (certs_kept _ k _ _ Hcerts) as Hcerts'.
    destruct c; cbn [invoke] in *;
      try (exfalso; revert Hcall; unfold_request; try destruct extval;
           rewrite ?Hself; discriminate).
    + rewrite (add_response_at _ _ _ _ _ _ _ _ _ _ _ Hself) in Hcall.
      rewrite (add_response_at _ _ _ _ _ _ _ _ _ _ _ Hself').
      destruct (Response._response a); [discriminate|].
      destruct (_SingleResponse__init__ _ _ _ _ _ _ _ _); [discriminate|].
      simplify_eq.
      eexists _, _, _. split; [done|].
      split; (eapply view_response; [apply lookup_new| |]);
        [by apply lookup_kept | apply certs_kept, Hcerts
        |by apply lookup_kept | apply certs_kept, Hcerts'].
    + rewrite (responder_id_at _ _ _ _ _ Hself) in Hcall.
      rewrite (responder_id_at _ _ _ _ _ Hself').
      destruct (Response._responder_id a); [discriminate|].
      destruct (negb (isinstance_Certificate responder_cert));
        [discriminate|].
      destruct (negb (isinstance_OCSPResponderEncoding encoding));
        [discriminate|].
      simplify_eq.
      eexists _, _, _. split; [done|].
      split; (eapply view_response; [apply lookup_new| |]);
        [by apply lookup_kept | apply certs_kept, Hcerts
        |by apply lookup_kept | apply certs_kept, Hcerts'].
    + rewrite (certificates_at _ _ _ _ Hself) in Hcall.
      rewrite (certificates_at _ _ _ _ Hself').
      destruct (Response._certs a); [discriminate|].
      destruct certs as [|c0 certs]; [discriminate|].
      destruct (forallb isinstance_Certificate (c0 :: certs));
        [|discriminate].
      simplify_eq.
      eexists _, _, (ResponseBuilderView _ _ (Some _) _). split; [done|].
      split; (eapply view_response; [apply lookup_new_second| |]);
        [by apply lookup_kept | eexists; split; [apply lookup_new_first|done]
        |by apply lookup_kept | eexists; split; [apply lookup_new_first|done]].
    + destruct extval as [| | | | | | | | | |v|]; try discriminate.
      rewrite (response_add_extension_at _ _ _ _ _ _ Hself Hlist) in Hcall.
      rewrite (response_add_extension_at _ _ _ _ _ _ Hself' Hlist').
      destruct (_reject_duplicate_extension _ exts); [discriminate|].
      simplify_eq.
      eexists _, _, _. split; [done|].
      split; (eapply view_response; [apply lookup_new_second| |]);
        [apply lookup_new_first | apply certs_kept, Hcerts
        |apply lookup_new_first | apply certs_kept, Hcerts'].
Qed.

(** C9.  Whatever [add_certificate], [add_response], [responder_id],
    [certificates] or [add_extension] of either builder does, and whether it
    returns or raises: every object that was in the store is still there
    with the same attributes, so the receiver and the lists it refers to are
    unchanged; a returned builder is an object the store did not hold
    before; and any call that returned a builder from the receiver before
    still does so afterwards, with the same contents.  In particular a call
    that raised leaves the receiver usable. *)
Theorem C9_builders_are_persistent
    (c : call) (s s' : store) (self : loc) (r : result loc) :
  invoke c self s = (r, s') ->
  (forall l o, s !! l = Some o -> s' !! l = Some o) /\
  (forall bv, view s self = Some bv -> view s' self = Some bv) /\
  (forall b, r = Return b ->
     s !! b = None /\ exists o, s' !! b = Some o /\ is_builder o = true) /\
  (forall bv c2 b s2,
     view s self = Some bv ->
     invoke c2 self s = (Return b, s2) ->
     exists b' s2' bv2,
       invoke c2 self s' = (Return b', s2') /\
       view s2 b = Some bv2 /\ view s2' b' = Some bv2).
Proof.
  intros Hcall. destruct (invoke_grows _ _ _ _ _ Hcall) as [k ->].
  split; [|split; [|split]].
  - intros l o. apply lookup_kept.
  - intros bv. apply view_kept.
  - intros b ->. by apply (invoke_returns_new c _ _ self).
  - intros bv c2 b s2 Hview Hcall2.
    by apply (invoke_in_larger_store c2 s k s2 self b bv).
Qed.

Lemma C9_witness :
  invoke (Response_certificates []) 3%nat fresh_store
  = (Raise (ValueError "certs must not be an empty list"),
     fresh_store ++ [ObjectList []]) /\
  (fresh_store ++ [ObjectList []]) !! 3%nat = fresh_store !! 3%nat /\
  exists b' s2' bv2,
    invoke (Response_certificates [PyCertificate issuer_cert]) 3%nat
      (fresh_store ++ [ObjectList []]) = (Return b', s2') /\
    view (snd (invoke (Response_certificates [PyCertificate issuer_cert])
                 3%nat fresh_store)) 5%nat = Some bv2 /\
    view s2' b' = Some bv2.
Proof.
  split; [reflexivity|]. split; [reflexivity|].
  apply (proj2 (proj2 (proj2
           (C9_builders_are_persistent (Response_certificates []) fresh_store
              (fresh_store ++ [ObjectList []]) 3%nat
              (Raise (ValueError "certs must not be an empty list"))
              eq_refl)))
           (ResponseBuilderView None None None [])
           (Response_certificates [PyCertificate issuer_cert]) 5%nat);
    reflexivity.
Defined.


(** ** The store-level methods compute on builder contents *)

Ltac raises_in_place := exists []; rewrite app_nil_r; reflexivity.

Lemma invoke_on_view (c : call) (s : store) (self : loc) (bv : builder_view) :
  view s self = Some bv ->
  match apply_call c bv with
  | Raise e => exists k, invoke c self s = (Raise e, s ++ k)
  | Return bv' =>
      exists b k, invoke c self s = (Return b, s ++ k) /\
                  view (s ++ k) b = Some bv'
  end.
Proof.
  intros Hview.
  destruct (view_Some _ _ _ Hview)
    as [(a & exts & Hself & Hlist & ->)|(a & exts & Hself & Hlist & Hcerts & Hbv)].
  - destruct c; cbn [invoke apply_call].
    + rewrite (add_certificate_at _ _ _ _ _ _ Hself).
      destruct (Request._request a); [raises_in_place|].
      unfold _verify_algorithm.
      destruct (isinstance_ALLOWED_HASHES algorithm); simpl; [|raises_in_place].
      destruct (negb (isinstance_Certificate cert)
                || negb (isinstance_Certificate issuer)); [raises_in_place|].
      eexists _, _. split; [done|].
      eapply view_request; [apply lookup_new | by apply lookup_kept].
    + destruct extval as [| | | | | | | | | |v|]; try raises_in_place.
      rewrite (request_add_extension_at _ _ _ _ _ _ Hself Hlist).
      destruct (_reject_duplicate_extension _ exts); simpl; [raises_in_place|].
      eexists _, _. split; [done|].
      eapply view_request; [apply lookup_new_second | apply lookup_new_first].
    + unfold_response. rewrite Hself. raises_in_place.
    + unfold_response. rewrite Hself. raises_in_place.
    + unfold_response. rewrite Hself. raises_in_place.
    + destruct extval as [| | | | | | | | | |v|]; try raises_in_place.
      unfold_response. rewrite Hself. raises_in_place.
  - rewrite Hbv.
    destruct c; cbn [invoke apply_call].
    + unfold_request. rewrite Hself. raises_in_place.
    + destruct extval as [| | | | | | | | | |v|]; try raises_in_place.
      unfold_request. rewrite Hself. raises_in_place.
    + rewrite (add_response_at _ _ _ _ _ _ _ _ _ _ _ Hself).
      destruct (Response._response a); [raises_in_place|].
      destruct (_SingleResponse__init__ _ _ _ _ _ _ _ _); simpl;
        [raises_in_place|].
      eexists _, _. split; [done|].
      eapply view_response;
        [apply lookup_new | by apply lookup_kept | apply certs_kept, Hcerts].
    + rewrite (responder_id_at _ _ _ _ _ Hself).
      destruct (Response._responder_id a); [raises_in_place|].
      destruct (negb (isinstance_Certificate responder_cert));
        [raises_in_place|].
      destruct (negb (isinstance_OCSPResponderEncoding encoding));
        [raises_in_place|].
      eexists _, _. split; [done|].
      eapply view_response;
        [apply lookup_new | by apply lookup_kept | apply certs_kept, Hcerts].
    + rewrite (certificates_at _ _ _ _ Hself).
      destruct (Response._certs a) eqn:Hc.
      { destruct Hcerts as (items & _ & ->). raises_in_place. }
      rewrite Hcerts.
      destruct certs as [|c0 certs]; [by eexists|].
      cbn [length Nat.eqb].
      destruct (forallb isinstance_Certificate (c0 :: certs)); [|by eexists].
      cbn [negb]. eexists _, _. split; [done|].
      eapply view_response; [apply lookup_new_second | by apply lookup_kept |].
      eexists. split; [apply lookup_new_first | done].
    + destruct extval as [| | | | | | | | | |v|]; try raises_in_place.
      rewrite (response_add_extension_at _ _ _ _ _ _ Hself Hlist).
      destruct (_reject_duplicate_extension _ exts); simpl; [raises_in_place|].
      eexists _, _. split; [done|].
      eapply view_response;
        [apply lookup_new_second | apply lookup_new_first
        | apply certs_kept, Hcerts].
Qed.

Lemma chain_on_view (calls : list call) :
  forall (s : store) (self : loc) (bv : builder_view),
    view s self = Some bv ->
    match apply_calls calls bv with
    | Raise e => exists k, chain calls self s = (Raise e, s ++ k)
    | Return bv' =>
        exists b k, chain calls self s = (Return b, s ++ k) /\
                    view (s ++ k) b = Some bv'
    end.
Proof.
  induction calls as [|c rest IH]; intros s self bv Hview.
  - exists self, []. rewrite app_nil_r. done.
  - cbn [apply_calls chain]. unfold bind, rbind.
    pose proof (invoke_on_view c s self bv Hview) as Hstep.
    destruct (apply_call c bv) as [e|bv1].
    + destruct Hstep as [k ->]. eauto.
    + destruct Hstep as (b1 & k1 & -> & Hview1).
      specialize (IH _ _ _ Hview1).
      destruct (apply_calls rest bv1) as [e|bv'].
      * destruct IH as [k ->]. exists (k1 ++ k). by rewrite app_assoc.
      * destruct IH as (b & k & -> & Hb).
        exists b, (k1 ++ k). by rewrite app_assoc.
Qed.

Lemma chain_returns (calls : list call) (s s' : store) (self b : loc)
    (bv : builder_view) :
  view s self = Some bv ->
  chain calls self s = (Return b, s') ->
  exists bv', apply_calls calls bv = Return bv' /\ view s' b = Some bv'.
Proof.
  intros Hview Hchain. pose proof (chain_on_view calls s self bv Hview) as H.
  destruct (apply_calls calls bv) as [e|bv'].
  - destruct H as [k Hk]. congruence.
  - destruct H as (b' & k & Hk & Hb). rewrite Hchain in Hk.
    injection Hk as -> ->. eauto.
Qed.

Lemma chain_raises (calls : list call) (s s' : store) (self : loc)
    (bv : builder_view) (e : exn) :
  view s self = Some bv ->
  chain calls self s = (Raise e, s') ->
  apply_calls calls bv = Raise e.
Proof.
  intros Hview Hchain. pose proof (chain_on_view calls s self bv Hview) as H.
  destruct (apply_calls calls bv) as [e'|bv'].
  - destruct H as [k Hk]. congruence.
  - destruct H as (b' & k & Hk & Hb). congruence.
Qed.

Lemma chain_grows (calls : list call) :
  forall (s s' : store) (self : loc) (r : result loc),
    chain calls self s = (r, s') -> exists k, s' = s ++ k.
Proof.
  induction calls as [|c rest IH]; intros s s' self r Hchain.
  - injection Hchain as <- <-. exists []. by rewrite app_nil_r.
  - cbn [chain] in Hchain. unfold bind in Hchain.
    destruct (invoke c self s) as [[e|b1] s1] eqn:Hcall.
    + injection Hchain as <- <-. eapply invoke_grows, Hcall.
    + destruct (invoke_grows _ _ _ _ _ Hcall) as [k1 ->].
      destruct (IH _ _ _ _ Hchain) as [k ->].
      exists (k1 ++ k). by rewrite app_assoc.
Qed.

(** ** The lookup tables *)

(** X1.  [_RESPONSE_STATUS_TO_ENUM] inverts the value of a response status:
    it holds [s] under [n] exactly when [n] is the value of [s].  Hence every
    member is found under its own value, and a key is present exactly when it
    is one of 0, 1, 2, 3, 5, 6; 4 is not a key. *)
Theorem X1_response_status_table_inverts_value :
  (forall n s,
     _RESPONSE_STATUS_TO_ENUM !! n = Some s <-> OCSPResponseStatus_value s = n) /\
  (forall s,
     _RESPONSE_STATUS_TO_ENUM !! OCSPResponseStatus_value s = Some s) /\
  (forall n, _RESPONSE_STATUS_TO_ENUM !! n = None <-> ~ In n [0; 1; 2; 3; 5; 6]).
Proof.
  assert (Hinv : forall n s,
            _RESPONSE_STATUS_TO_ENUM !! n = Some s <->
            OCSPResponseStatus_value s = n).
  { intros n s. unfold _RESPONSE_STATUS_TO_ENUM. simpl.
    rewrite !lookup_insert_Some, lookup_empty.
    destruct s; simpl; split; intros H; try lia;
      intuition (try discriminate; try congruence; try lia). }
  split; [exact Hinv|]. split.
  - intros s. by apply Hinv.
  - intros n. split.
    + intros Hnone Hin. simpl in Hin.
      assert (exists s, OCSPResponseStatus_value s = n) as [s Hs].
      { destruct Hin as [<-|[<-|[<-|[<-|[<-|[<-|[]]]]]]];
          [by exists SUCCESSFUL | by exists MALFORMED_REQUEST
          | by exists INTERNAL_ERROR | by exists TRY_LATER
          | by exists SIG_REQUIRED | by exists UNAUTHORIZED]. }
      apply Hinv in Hs. congruence.
    + intros Hnot. destruct (_RESPONSE_STATUS_TO_ENUM !! n) as [s|] eqn:E;
        [|done].
      apply Hinv in E. destruct Hnot. subst n. destruct s; simpl; tauto.
Qed.

(** X2.  [_CERT_STATUS_TO_ENUM] inverts the value of a certificate status,
    and its keys are exactly 0, 1 and 2. *)
Theorem X2_cert_status_table_inverts_value :
  (forall n s,
     _CERT_STATUS_TO_ENUM !! n = Some s <-> OCSPCertStatus_value s = n) /\
  (forall s, _CERT_STATUS_TO_ENUM !! OCSPCertStatus_value s = Some s) /\
  (forall n, _CERT_STATUS_TO_ENUM !! n = None <-> ~ (0 <= n <= 2)).
Proof.
  assert (Hinv : forall n s,
            _CERT_STATUS_TO_ENUM !! n = Some s <-> OCSPCertStatus_value s = n).
  { intros n s. unfold _CERT_STATUS_TO_ENUM. simpl.
    rewrite !lookup_insert_Some, lookup_empty.
    destruct s; simpl; split; intros H; try lia;
      intuition (try discriminate; try congruence; try lia). }
  split; [exact Hinv|]. split.
  - intros s. by apply Hinv.
  - intros n. split.
    + intros Hnone Hin.
      assert (exists s, OCSPCertStatus_value s = n) as [s Hs].
      { assert (n = 0 \/ n = 1 \/ n = 2) as [->|[->| ->]] by lia;
          [by exists GOOD | by exists REVOKED | by exists UNKNOWN]. }
      apply Hinv in Hs. congruence.
    + intros Hnot. destruct (_CERT_STATUS_TO_ENUM !! n) as [s|] eqn:E; [|done].
      apply Hinv in E. destruct Hnot. subst n. destruct s; simpl; lia.
Qed.

(** X3.  Every hash object that [_OIDS_TO_HASH] holds passes
    [_verify_algorithm]; every algorithm that passes [_verify_algorithm] is
    held by the table; and no two identifiers of the table name the same
    hash. *)
Theorem X3_oid_table_matches_allowed_hashes :
  (forall oid h,
     _OIDS_TO_HASH !! oid = Some h -> _verify_algorithm (PyHash h) = Return tt) /\
  (forall algorithm,
     _verify_algorithm algorithm = Return tt ->
     exists oid h, _OIDS_TO_HASH !! oid = Some h /\ algorithm = PyHash h) /\
  (forall oid1 oid2 h,
     _OIDS_TO_HASH !! oid1 = Some h -> _OIDS_TO_HASH !! oid2 = Some h ->
     oid1 = oid2).
Proof.
  assert (Hentries : forall oid h,
            _OIDS_TO_HASH !! oid = Some h <->
            In (oid, h) [("1.3.14.3.2.26", SHA1);
                         ("2.16.840.1.101.3.4.2.4", SHA224);
                         ("2.16.840.1.101.3.4.2.1", SHA256);
                         ("2.16.840.1.101.3.4.2.2", SHA384);
                         ("2.16.840.1.101.3.4.2.3", SHA512)]).
  { intros oid h. unfold _OIDS_TO_HASH. simpl.
    rewrite !lookup_insert_Some, lookup_empty. split.
    - intros H. intuition (subst; auto 10; try discriminate).
    - intros H. simpl in H.
      destruct H as [H|[H|[H|[H|[H|[]]]]]]; injection H as <- <-;
        repeat first [ left; split; reflexivity
                     | right; split; [discriminate|] ]. }
  split; [|split].
  - intros oid h H%Hentries. simpl in H.
    destruct H as [H|[H|[H|[H|[H|[]]]]]]; by injection H as <- <-.
  - intros algorithm H%verify_algorithm_allowed%allowed_hashes_five.
    destruct H as [->|[->|[->|[->| ->]]]]; eexists _, _;
      (split; [|reflexivity]); apply Hentries; simpl; tauto.
  - intros oid1 oid2 h H1%Hentries H2%Hentries. simpl in H1, H2.
    destruct H1 as [H1|[H1|[H1|[H1|[H1|[]]]]]]; injection H1 as <- <-;
      destruct H2 as [H2|[H2|[H2|[H2|[H2|[]]]]]]; by injection H2 as <-.
Qed.

Lemma X3_witness :
  _verify_algorithm (PyHash SHA384) = Return tt /\
  (exists oid h, _OIDS_TO_HASH !! oid = Some h /\ PyHash SHA1 = PyHash h) /\
  "2.16.840.1.101.3.4.2.1" = "2.16.840.1.101.3.4.2.1".
Proof.
  split; [|split].
  - apply (proj1 X3_oid_table_matches_allowed_hashes
             "2.16.840.1.101.3.4.2.2"). reflexivity.
  - apply (proj1 (proj2 X3_oid_table_matches_allowed_hashes)). reflexivity.
  - apply (proj2 (proj2 X3_oid_table_matches_allowed_hashes)
             "2.16.840.1.101.3.4.2.1" "2.16.840.1.101.3.4.2.1" SHA256);
      reflexivity.
Defined.

Lemma X1_witness : _RESPONSE_STATUS_TO_ENUM !! 4 = None.
Proof.
  apply (proj2 (proj2 X1_response_status_table_inverts_value) 4).
  simpl. intros H. repeat destruct H as [H|H]; try discriminate H. exact H.
Defined.

Lemma X2_witness : _CERT_STATUS_TO_ENUM !! 3 = None.
Proof.
  apply (proj2 (proj2 X2_cert_status_table_inverts_value) 3). lia.
Defined.

(** ** The constructor, completely *)

Lemma convert_idempotent (t : datetime) :
  _convert_to_naive_utc_time (_convert_to_naive_utc_time t)
  = _convert_to_naive_utc_time t.
Proof.
  unfold _convert_to_naive_utc_time at 1. by rewrite convert_is_naive.
Qed.

Lemma single_response_not_revoked_accepted
    (cert issuer algorithm this_update next_update : pyobj)
    (status : OCSPCertStatus) :
  isinstance_Certificate cert = true ->
  isinstance_Certificate issuer = true ->
  isinstance_ALLOWED_HASHES algorithm = true ->
  isinstance_datetime this_update = true ->
  next_update = PyNone \/ isinstance_datetime next_update = true ->
  status <> REVOKED ->
  _SingleResponse__init__ cert issuer algorithm (PyCertStatus status)
    this_update next_update PyNone PyNone
  = Return {| _cert := cert; _issuer := issuer; _algorithm := algorithm;
              _this_update := this_update; _next_update := next_update;
              _cert_status := PyCertStatus status;
              _revocation_time := PyNone; _revocation_reason := PyNone |}.
Proof.
  intros Hc Hi Ha Ht Hn Hs. unfold _SingleResponse__init__, _verify_algorithm.
  rewrite Hc, Hi, Ha, Ht. simpl.
  assert (negb (is_None next_update) && negb (isinstance_datetime next_update)
          = false) as ->.
  { destruct Hn as [->| ->]; [done | by rewrite andb_false_r]. }
  by destruct status.
Qed.

Lemma single_response_revoked_accepted
    (cert issuer algorithm this_update next_update revocation_reason : pyobj)
    (t : datetime) :
  isinstance_Certificate cert = true ->
  isinstance_Certificate issuer = true ->
  isinstance_ALLOWED_HASHES algorithm = true ->
  isinstance_datetime this_update = true ->
  next_update = PyNone \/ isinstance_datetime next_update = true ->
  datetime_lt (_convert_to_naive_utc_time t) _EARLIEST_UTC_TIME = false ->
  revocation_reason = PyNone \/ isinstance_ReasonFlags revocation_reason = true ->
  _SingleResponse__init__ cert issuer algorithm (PyCertStatus REVOKED)
    this_update next_update (PyDatetime t) revocation_reason
  = Return {| _cert := cert; _issuer := issuer; _algorithm := algorithm;
              _this_update := this_update; _next_update := next_update;
              _cert_status := PyCertStatus REVOKED;
              _revocation_time := PyDatetime (_convert_to_naive_utc_time t);
              _revocation_reason := revocation_reason |}.
Proof.
  intros Hc Hi Ha Ht Hn Hf Hr. unfold _SingleResponse__init__, _verify_algorithm.
  rewrite Hc, Hi, Ha, Ht. simpl.
  assert (negb (is_None next_update) && negb (isinstance_datetime next_update)
          = false) as ->.
  { destruct Hn as [->| ->]; [done | by rewrite andb_false_r]. }
  rewrite Hf.
  assert (negb (is_None revocation_reason)
          && negb (isinstance_ReasonFlags revocation_reason) = false) as ->.
  { destruct Hr as [->| ->]; [done | by rewrite andb_false_r]. }
  done.
Qed.


(** X5.  A record the constructor returned is accepted again: passing its
    eight fields back to the constructor returns the same record.  In
    particular the stored revocation time is not shifted a second time. *)
Theorem X5_constructor_fixes_its_records
    (cert issuer algorithm cert_status this_update next_update
     revocation_time revocation_reason : pyobj) (r : _SingleResponse) :
  _SingleResponse__init__ cert issuer algorithm cert_status
    this_update next_update revocation_time revocation_reason = Return r ->
  _SingleResponse__init__ (_cert r) (_issuer r) (_algorithm r) (_cert_status r)
    (_this_update r) (_next_update r) (_revocation_time r)
    (_revocation_reason r) = Return r.
Proof.
  intros E.
  apply single_response_returns in E
    as ((Hc & Hi & Ha & Ht & Hn)
        & (<- & <- & <- & <- & <- & Hst & <-) & status & -> & Hs).
  destruct r as [c i a tu nu cs rt rr]. simpl in *. subst cs.
  destruct status.
  - destruct Hs as (_ & -> & ->).
    by rewrite single_response_not_revoked_accepted.
  - destruct Hs as (t & _ & -> & Hf & Hr).
    rewrite single_response_revoked_accepted; try done.
    + by rewrite convert_idempotent.
    + by rewrite convert_idempotent.
  - destruct Hs as (_ & -> & ->).
    by rewrite single_response_not_revoked_accepted.
Qed.

Lemma X5_witness :
  _SingleResponse__init__ (PyCertificate leaf_cert) (PyCertificate issuer_cert)
    (PyHash SHA1) (PyCertStatus REVOKED) (PyDatetime aware_1900) PyNone
    (PyDatetime
       {| wall_clock := wall_clock (datetime_of 2024 2 1) - 3600000000;
          utcoffset := None |})
    (PyReasonFlags superseded)
  = Return
      {| _cert := PyCertificate leaf_cert;
         _issuer := PyCertificate issuer_cert;
         _algorithm := PyHash SHA1;
         _this_update := PyDatetime aware_1900;
         _next_update := PyNone;
         _cert_status := PyCertStatus REVOKED;
         _revocation_time :=
           PyDatetime
             {| wall_clock := wall_clock (datetime_of 2024 2 1) - 3600000000;
                utcoffset := None |};
         _revocation_reason := PyReasonFlags superseded |}.
Proof.
  exact (X5_constructor_fixes_its_records
           (PyCertificate leaf_cert) (PyCertificate issuer_cert)
           (PyHash SHA1) (PyCertStatus REVOKED) (PyDatetime aware_1900) PyNone
           (PyDatetime {| wall_clock := wall_clock (datetime_of 2024 2 1);
                          utcoffset := Some 3600000000 |})
           (PyReasonFlags superseded)
           {| _cert := PyCertificate leaf_cert;
              _issuer := PyCertificate issuer_cert;
              _algorithm := PyHash SHA1;
              _this_update := PyDatetime aware_1900;
              _next_update := PyNone;
              _cert_status := PyCertStatus REVOKED;
              _revocation_time :=
                PyDatetime
                  {| wall_clock :=
                       wall_clock (datetime_of 2024 2 1) - 3600000000;
                     utcoffset := None |};
              _revocation_reason := PyReasonFlags superseded |}
           eq_refl).
Defined.


(** ** Chains of calls, on contents *)

Lemma chain_raises_iff (calls : list call) (s : store) (self : loc)
    (bv : builder_view) (e : exn) :
  view s self = Some bv ->
  (exists s', chain calls self s = (Raise e, s')) <->
  apply_calls calls bv = Raise e.
Proof.
  intros Hview. split.
  - intros [s' H]. eapply chain_raises; eauto.
  - intros H. pose proof (chain_on_view calls s self bv Hview) as Hc.
    rewrite H in Hc. destruct Hc as [k Hk]. eauto.
Qed.

Lemma chain_returns_iff (calls : list call) (s : store) (self : loc)
    (bv bv' : builder_view) :
  view s self = Some bv ->
  (exists b s', chain calls self s = (Return b, s') /\ view s' b = Some bv') <->
  apply_calls calls bv = Return bv'.
Proof.
  intros Hview. split.
  - intros (b & s' & Hchain & Hb).
    destruct (chain_returns _ _ _ _ _ _ Hview Hchain) as (bv1 & Hap & Hb1).
    congruence.
  - intros H. pose proof (chain_on_view calls s self bv Hview) as Hc.
    rewrite H in Hc. destruct Hc as (b & k & Hk & Hb). eauto.
Qed.

Lemma reject_duplicate_returns (extension : Extension)
    (extensions : list Extension) (u : unit) :
  _reject_duplicate_extension extension extensions = Return u ->
  ~ In (ext_oid extension) (map ext_oid extensions).
Proof.
  induction extensions as [|e rest IH]; simpl; [tauto|].
  destruct (String.eqb_spec (ext_oid e) (ext_oid extension)) as [|Hne];
    [discriminate|].
  intros H [Heq|Hin]; [done | by apply IH].
Qed.

Ltac crunch_apply_call :=
  unfold rbind, _verify_algorithm in *;
  repeat (case_match; simplify_eq; try discriminate).

(** One call: the slot of a once-only method goes from empty to filled when
    the call invokes that method, and is untouched otherwise. *)
Lemma apply_call_counts (c : call) (o : operation) (bv bv' : builder_view) :
  once_only o = true ->
  apply_call c bv = Return bv' ->
  ((if bool_decide (operation_of c = o) then 1 else 0)
   + (if slot_filled o bv then 1 else 0)
   = if slot_filled o bv' then 1 else 0)%nat.
Proof.
  intros Ho H.
  destruct o; try discriminate Ho;
    destruct c; destruct bv as [vrequest vexts|vresponse vrid vcerts vexts];
    cbn [apply_call operation_of] in H; try discriminate;
    cbn; revert H; crunch_apply_call; intros ?; simplify_eq; reflexivity.
Qed.

Lemma extends_refl (bv : builder_view) : extends bv bv.
Proof. destruct bv; simpl; unfold slot_kept; auto. Qed.

Lemma extends_trans (bv1 bv2 bv3 : builder_view) :
  extends bv1 bv2 -> extends bv2 bv3 -> extends bv1 bv3.
Proof.
  destruct bv1, bv2, bv3; simpl; try tauto; unfold slot_kept.
  - intros [H1 P1] [H2 P2]. split; [auto | by etrans].
  - intros (H1 & I1 & C1 & P1) (H2 & I2 & C2 & P2).
    repeat split; auto. by etrans.
Qed.

Lemma apply_call_extends (c : call) (bv bv' : builder_view) :
  apply_call c bv = Return bv' -> extends bv bv'.
Proof.
  intros H.
  destruct c; destruct bv as [vrequest vexts|vresponse vrid vcerts vexts];
    cbn [apply_call] in H; try discriminate;
    crunch_apply_call; simpl; unfold slot_kept;
    repeat split; try done; try (by apply prefix_app_r).
Qed.

Lemma apply_calls_extends (calls : list call) :
  forall bv bv', apply_calls calls bv = Return bv' -> extends bv bv'.
Proof.
  induction calls as [|c rest IH]; intros bv bv' H.
  - injection H as <-. apply extends_refl.
  - cbn [apply_calls] in H. unfold rbind in H.
    destruct (apply_call c bv) as [e|bv1] eqn:E; [discriminate|].
    eapply extends_trans; [eapply apply_call_extends, E | by apply IH].
Qed.

Lemma apply_calls_counts (o : operation) (calls : list call) :
  once_only o = true ->
  forall bv bv', apply_calls calls bv = Return bv' ->
    (count_calls o calls + (if slot_filled o bv then 1 else 0)
     = if slot_filled o bv' then 1 else 0)%nat.
Proof.
  intros Ho. induction calls as [|c rest IH]; intros bv bv' H.
  - by injection H as <-.
  - cbn [apply_calls] in H. unfold rbind in H.
    destruct (apply_call c bv) as [e|bv1] eqn:E; [discriminate|].
    pose proof (apply_call_counts c o bv bv1 Ho E).
    pose proof (IH bv1 bv' H). cbn [count_calls]. lia.
Qed.

Lemma single_response_valid
    (cert issuer algorithm cert_status this_update next_update
     revocation_time revocation_reason : pyobj) (r : _SingleResponse) :
  _SingleResponse__init__ cert issuer algorithm cert_status
    this_update next_update revocation_time revocation_reason = Return r ->
  valid_single_response r.
Proof.
  intros E.
  apply single_response_returns in E
    as ((Hc & Hi & Ha & Ht & Hn)
        & (<- & <- & <- & <- & <- & Hst & <-) & status & -> & Hs).
  unfold valid_single_response. rewrite Hst.
  repeat (split; [done || by apply permitted_allowed|]).
  exists status. split; [done|]. destruct status.
  - destruct Hs as (_ & -> & ->). done.
  - destruct Hs as (t & _ & -> & Hf & Hr). split; [|done].
    eexists. split; [done|]. split; [apply convert_is_naive | done].
  - destruct Hs as (_ & -> & ->). done.
Qed.

Lemma distinct_after_append (exts : list Extension) (x : Extension) (u : unit) :
  NoDup (map ext_oid exts) ->
  _reject_duplicate_extension x exts = Return u ->
  NoDup (map ext_oid (exts ++ [x])).
Proof.
  intros Hnodup Hx%reject_duplicate_returns.
  rewrite map_app. apply NoDup_app. split; [done|]. split.
  - intros o Ho [->|[]%elem_of_nil]%elem_of_cons.
    by apply list_elem_of_In in Ho.
  - apply NoDup_singleton.
Qed.

Lemma apply_call_well_formed (c : call) (bv bv' : builder_view) :
  well_formed bv -> apply_call c bv = Return bv' -> well_formed bv'.
Proof.
  intros Hwf H.
  destruct c; destruct bv as [vrequest vexts|vresponse vrid vcerts vexts];
    cbn [apply_call] in H; try discriminate;
    try (destruct extval; discriminate); simpl in Hwf.
  - destruct Hwf as [_ Hx]. destruct vrequest; [by simpl in H|].
    unfold rbind, _verify_algorithm in H.
    destruct (isinstance_ALLOWED_HASHES algorithm) eqn:Ha; [|by simpl in H].
    destruct (isinstance_Certificate cert) eqn:Hc; [|by simpl in H].
    destruct (isinstance_Certificate issuer) eqn:Hi; [|by simpl in H].
    simpl in H. injection H as <-. simpl. split; [|done].
    intros ? ? ? [= <- <- <-]. by rewrite permitted_allowed.
  - destruct extval; try discriminate. destruct Hwf as [Hr Hx].
    unfold rbind in H.
    destruct (_reject_duplicate_extension _ vexts) as [|u] eqn:E;
      [by simpl in H|].
    injection H as <-. simpl. split; [done|].
    by eapply distinct_after_append.
  - destruct Hwf as (_ & Hi & Hc & Hx). destruct vresponse; [by simpl in H|].
    unfold rbind in H.
    destruct (_SingleResponse__init__ _ _ _ _ _ _ _ _) as [|r] eqn:E;
      [by simpl in H|].
    injection H as <-. simpl. split; [|done].
    intros ? [= <-]. eapply single_response_valid, E.
  - destruct Hwf as (Hr & _ & Hc & Hx). destruct vrid; [by simpl in H|].
    destruct (isinstance_Certificate responder_cert) eqn:Hcert;
      [|by simpl in H].
    destruct (isinstance_OCSPResponderEncoding encoding) eqn:Henc;
      [|by simpl in H].
    simpl in H. injection H as <-. simpl.
    split; [done|]. split; [|done]. by intros ? ? [= <- <-].
  - destruct Hwf as (Hr & Hi & _ & Hx). destruct vcerts; [by simpl in H|].
    destruct certs as [|c0 certs]; [by simpl in H|]. cbn [length Nat.eqb] in H.
    destruct (forallb isinstance_Certificate (c0 :: certs)) eqn:Hall;
      [|by simpl in H].
    simpl in H. injection H as <-. simpl.
    split; [done|]. split; [done|]. split; [|done]. by intros ? [= <-].
  - destruct extval; try discriminate. destruct Hwf as (Hr & Hi & Hc & Hx).
    unfold rbind in H.
    destruct (_reject_duplicate_extension _ vexts) as [|u] eqn:E;
      [by simpl in H|].
    injection H as <-. simpl.
    split; [done|]. split; [done|]. split; [done|].
    by eapply distinct_after_append.
Qed.

Lemma apply_calls_well_formed (calls : list call) :
  forall bv bv',
    well_formed bv -> apply_calls calls bv = Return bv' -> well_formed bv'.
Proof.
  induction calls as [|c rest IH]; intros bv bv' Hwf H.
  - by injection H as <-.
  - cbn [apply_calls] in H. unfold rbind in H.
    destruct (apply_call c bv) as [e|bv1] eqn:E; [discriminate|].
    eapply IH; [eapply apply_call_well_formed, E; done | done].
Qed.

(** Two calls of different methods, in either order. *)
Lemma apply_calls_swap (c1 c2 : call) (bv bv' : builder_view) :
  operation_of c1 <> operation_of c2 ->
  apply_calls [c1; c2] bv = Return bv' ->
  apply_calls [c2; c1] bv = Return bv'.
Proof.
  intros Hne H.
  destruct c1, c2; try (by destruct Hne);
    destruct bv as [vrequest vexts|vresponse vrid vcerts vexts];
    cbn [apply_calls apply_call] in *; revert H;
    crunch_apply_call; intros ?; simplify_eq; try reflexivity.
Qed.

(** ** Chains of calls, in the store *)

(** X6.  The outcome of a chain of calls depends on the contents of the
    receiver only: for two builders with the same contents, at any locations
    of any two stores, a chain raises an exception on one exactly when it
    raises the same exception on the other, and returns a builder with given
    contents on one exactly when it does on the other. *)
Theorem X6_equal_contents_equal_outcome
    (calls : list call) (s t : store) (b1 b2 : loc) (bv : builder_view) :
  view s b1 = Some bv ->
  view t b2 = Some bv ->
  (forall e,
     (exists s', chain calls b1 s = (Raise e, s')) <->
     (exists t', chain calls b2 t = (Raise e, t'))) /\
  (forall bv',
     (exists b s', chain calls b1 s = (Return b, s') /\ view s' b = Some bv') <->
     (exists b t', chain calls b2 t = (Return b, t') /\ view t' b = Some bv')).
Proof.
  intros Hs Ht. split.
  - intros e. by rewrite (chain_raises_iff _ _ _ _ _ Hs),
                         (chain_raises_iff _ _ _ _ _ Ht).
  - intros bv'. by rewrite (chain_returns_iff _ _ _ _ _ Hs),
                           (chain_returns_iff _ _ _ _ _ Ht).
Qed.

(** X7.  Calls of two different methods commute: on a receiver whose lists
    are in the store, [c1] then [c2] returns a builder with given contents
    exactly when [c2] then [c1] does. *)
Theorem X7_different_methods_commute
    (c1 c2 : call) (s : store) (self : loc) (bv bv' : builder_view) :
  operation_of c1 <> operation_of c2 ->
  view s self = Some bv ->
  (exists b s', chain [c1; c2] self s = (Return b, s') /\
                view s' b = Some bv') <->
  (exists b s', chain [c2; c1] self s = (Return b, s') /\
                view s' b = Some bv').
Proof.
  intros Hne Hview.
  rewrite !(chain_returns_iff _ _ _ _ _ Hview).
  split; apply apply_calls_swap; [done | by apply not_eq_sym].
Qed.

(** X8.  A chain of calls only adds: the builder it returns is of the class
    of the receiver, every slot that was filled in the receiver holds the
    same value, and the extensions of the receiver are the first extensions
    of the result, in the same order. *)
Theorem X8_chain_only_adds
    (calls : list call) (s s' : store) (self b : loc) (bv : builder_view) :
  view s self = Some bv ->
  chain calls self s = (Return b, s') ->
  exists bv', view s' b = Some bv' /\ extends bv bv'.
Proof.
  intros Hview Hchain.
  destruct (chain_returns _ _ _ _ _ _ Hview Hchain) as (bv' & Hap & Hb).
  exists bv'. split; [done|]. by eapply apply_calls_extends.
Qed.

(** X9.  For each of [add_certificate], [add_response], [responder_id] and
    [certificates]: in a chain that returns a builder, the number of calls of
    that method plus one if its slot was filled in the receiver is one if the
    slot is filled in the result and zero otherwise.  So such a chain calls
    the method at most once, not at all when the slot was filled, and the
    slot is filled in the result exactly when it was filled before or the
    method was called. *)
Theorem X9_once_only_methods_counted
    (o : operation) (calls : list call) (s s' : store) (self b : loc)
    (bv : builder_view) :
  once_only o = true ->
  view s self = Some bv ->
  chain calls self s = (Return b, s') ->
  exists bv',
    view s' b = Some bv' /\
    (count_calls o calls + (if slot_filled o bv then 1 else 0)
     = if slot_filled o bv' then 1 else 0)%nat.
Proof.
  intros Ho Hview Hchain.
  destruct (chain_returns _ _ _ _ _ _ Hview Hchain) as (bv' & Hap & Hb).
  exists bv'. split; [done|]. by apply apply_calls_counts.
Qed.

(** X10.  Well-formed contents stay well-formed along a chain: if the
    receiver holds only checked values (a request of two certificates and a
    permitted algorithm; a valid single response; a responder id of a
    certificate and an encoding; a non-empty list of certificates;
    extensions with pairwise distinct identifiers), so does the builder the
    chain returns. *)
Theorem X10_chain_keeps_well_formed
    (calls : list call) (s s' : store) (self b : loc) (bv : builder_view) :
  well_formed bv ->
  view s self = Some bv ->
  chain calls self s = (Return b, s') ->
  exists bv', view s' b = Some bv' /\ well_formed bv'.
Proof.
  intros Hwf Hview Hchain.
  destruct (chain_returns _ _ _ _ _ _ Hview Hchain) as (bv' & Hap & Hb).
  exists bv'. split; [done|]. by eapply apply_calls_well_formed.
Qed.

(** ** From a new builder to the backend *)

Lemma new_request_builder_view (k : store) :
  view (snd (new_OCSPRequestBuilder (module_store ++ k)))
    (length (module_store ++ k))
  = Some (RequestBuilderView None []).
Proof.
  unfold new_OCSPRequestBuilder, OCSPRequestBuilder.__init__, new.
  cbn [snd]. eapply view_request; [apply lookup_new|].
  apply lookup_kept. reflexivity.
Qed.

Lemma new_response_builder_view (k : store) :
  view (snd (new_OCSPResponseBuilder (module_store ++ k)))
    (length (module_store ++ k))
  = Some (ResponseBuilderView None None None []).
Proof.
  unfold new_OCSPResponseBuilder, OCSPResponseBuilder.__init__, new.
  cbn [snd]. eapply view_response; [apply lookup_new| |done].
  apply lookup_kept. reflexivity.
Qed.

Lemma new_request_builder_well_formed :
  well_formed (RequestBuilderView None []).
Proof. split; [done | apply NoDup_nil_2]. Qed.

Lemma new_response_builder_well_formed :
  well_formed (ResponseBuilderView None None None []).
Proof. repeat split; try done. apply NoDup_nil_2. Qed.

(** X11.  For a builder made by [OCSPRequestBuilder()] in a store that
    extends the module's, and any chain of calls on it that returns a
    builder [b]: the chain calls [add_certificate] at most once; [build] on
    [b] hands [b] to the backend if it was called once and raises ValueError
    if it was not called; and the contents of [b] are well-formed. *)
Theorem X11_request_chain_then_build
    (k : store) (calls : list call) (b : loc) (s' : store) :
  chain calls (length (module_store ++ k))
    (snd (new_OCSPRequestBuilder (module_store ++ k))) = (Return b, s') ->
  (count_calls op_request_add_certificate calls <= 1)%nat /\
  (count_calls op_request_add_certificate calls = 1%nat ->
   OCSPRequestBuilder.build b s' = (Return (create_ocsp_request b), s')) /\
  (count_calls op_request_add_certificate calls = 0%nat ->
   OCSPRequestBuilder.build b s'
   = (Raise (ValueError "You must add a certificate before building"), s')) /\
  exists bv, view s' b = Some bv /\ well_formed bv.
Proof.
  intros Hchain.
  destruct (chain_returns _ _ _ _ _ _ (new_request_builder_view k) Hchain)
    as (bv' & Hap & Hb).
  pose proof (apply_calls_counts op_request_add_certificate calls eq_refl
                _ _ Hap) as Hcount.
  pose proof (apply_calls_extends _ _ _ Hap) as Hext.
  pose proof (apply_calls_well_formed _ _ _ new_request_builder_well_formed
                Hap) as Hwf.
  destruct bv' as [vrequest vexts|]; [|destruct Hext].
  destruct (view_Some _ _ _ Hb)
    as [(a & exts & Hself & _ & [= -> _])|(a & exts & _ & _ & _ & [=])].
  rewrite (build_at _ _ _ Hself). simpl in Hcount.
  destruct (Request._request a); (split; [lia|]);
    (split; [intros; done || lia|]); (split; [intros; done || lia|]); eauto.
Qed.

(** X12.  For a builder made by [OCSPResponseBuilder()] in a store that
    extends the module's, and any chain of calls on it that returns a
    builder [b]: [sign] on [b] hands [b], the key and the algorithm to the
    backend with status SUCCESSFUL exactly when the chain called
    [add_response] once and [responder_id] once; and the contents of [b] are
    well-formed. *)
Theorem X12_response_chain_then_sign
    (k : store) (calls : list call) (b : loc) (s' : store)
    (private_key algorithm : pyobj) :
  chain calls (length (module_store ++ k))
    (snd (new_OCSPResponseBuilder (module_store ++ k))) = (Return b, s') ->
  (OCSPResponseBuilder.sign b private_key algorithm s'
   = (Return (create_ocsp_response SUCCESSFUL (Some b) private_key algorithm),
      s') <->
   count_calls op_response_add_response calls = 1%nat /\
   count_calls op_response_responder_id calls = 1%nat) /\
  exists bv, view s' b = Some bv /\ well_formed bv.
Proof.
  intros Hchain.
  destruct (chain_returns _ _ _ _ _ _ (new_response_builder_view k) Hchain)
    as (bv' & Hap & Hb).
  pose proof (apply_calls_counts op_response_add_response calls eq_refl
                _ _ Hap) as Hresp.
  pose proof (apply_calls_counts op_response_responder_id calls eq_refl
                _ _ Hap) as Hrid.
  pose proof (apply_calls_extends _ _ _ Hap) as Hext.
  pose proof (apply_calls_well_formed _ _ _ new_response_builder_well_formed
                Hap) as Hwf.
  destruct bv' as [|vresponse vrid vcerts vexts]; [destruct Hext|].
  destruct (view_Some _ _ _ Hb)
    as [(a & exts & _ & _ & [=])|(a & exts & Hself & _ & _ & [= -> -> _])].
  simpl in Hresp, Hrid.
  rewrite (sign_at _ _ _ _ _ Hself).
  split; [|eauto].
  destruct (Response._response a), (Response._responder_id a);
    split; intros H; try discriminate H; try lia; try done.
Qed.

(** X13.  The list objects made for the default [extensions=[]] are never
    updated: after any chain of calls on any receiver, in a store that
    extends the module's, [OCSPRequestBuilder()] and [OCSPResponseBuilder()]
    still make builders with no extensions and every slot empty. *)
Theorem X13_default_extension_lists_stay_empty
    (k : store) (calls : list call) (self : loc) (r : result loc)
    (s' : store) :
  chain calls self (module_store ++ k) = (r, s') ->
  view (snd (new_OCSPRequestBuilder s')) (length s')
  = Some (RequestBuilderView None []) /\
  view (snd (new_OCSPResponseBuilder s')) (length s')
  = Some (ResponseBuilderView None None None []).
Proof.
  intros Hchain. destruct (chain_grows _ _ _ _ _ Hchain) as [k' ->].
  rewrite <- app_assoc.
  split; [apply new_request_builder_view | apply new_response_builder_view].
Qed.

Lemma X6_witness :
  exists b t',
    chain [Response_responder_id (PyResponderEncoding HASH)
             (PyCertificate issuer_cert)] 3%nat built_store = (Return b, t') /\
    view t' b
    = Some (ResponseBuilderView None
              (Some (PyCertificate issuer_cert, PyResponderEncoding HASH))
              None []).
Proof.
  apply (proj1 (proj2 (X6_equal_contents_equal_outcome
                         [Response_responder_id (PyResponderEncoding HASH)
                            (PyCertificate issuer_cert)]
                         fresh_store built_store 3%nat 3%nat
                         (ResponseBuilderView None None None [])
                         eq_refl eq_refl) _)).
  eexists _, _. split; reflexivity.
Defined.

Lemma X7_witness :
  exists b s',
    chain [Response_responder_id (PyResponderEncoding NAME)
             (PyCertificate issuer_cert);
           Response_certificates [PyCertificate issuer_cert]]
      3%nat fresh_store = (Return b, s') /\
    view s' b
    = Some (ResponseBuilderView None
              (Some (PyCertificate issuer_cert, PyResponderEncoding NAME))
              (Some [PyCertificate issuer_cert]) []).
Proof.
  apply (proj1 (X7_different_methods_commute
                  (Response_certificates [PyCertificate issuer_cert])
                  (Response_responder_id (PyResponderEncoding NAME)
                     (PyCertificate issuer_cert))
                  fresh_store 3%nat
                  (ResponseBuilderView None None None []) _
                  ltac:(discriminate) eq_refl)).
  eexists _, _. split; reflexivity.
Defined.

Lemma X8_witness :
  exists bv',
    view (snd (chain [Request_add_extension (PyExtensionType nonce_ext) true;
                      Request_add_certificate (PyCertificate leaf_cert)
                        (PyCertificate issuer_cert) (PyHash SHA256)]
                 5%nat
                 (snd (OCSPRequestBuilder.add_extension 2%nat
                         (PyExtensionType sct_ext) false fresh_store))))
      8%nat = Some bv' /\
    extends (RequestBuilderView None [make_extension sct_ext false]) bv'.
Proof.
  apply (X8_chain_only_adds
           [Request_add_extension (PyExtensionType nonce_ext) true;
            Request_add_certificate (PyCertificate leaf_cert)
              (PyCertificate issuer_cert) (PyHash SHA256)]
           (snd (OCSPRequestBuilder.add_extension 2%nat
                   (PyExtensionType sct_ext) false fresh_store))
           _ 5%nat 8%nat _ eq_refl eq_refl).
Defined.

Lemma X9_witness :
  exists bv',
    view (snd (chain [Response_add_extension (PyExtensionType nonce_ext) true;
                      Response_certificates [PyCertificate issuer_cert]]
                 3%nat fresh_store)) 7%nat = Some bv' /\
    (1 + 0 = if slot_filled op_response_certificates bv' then 1 else 0)%nat.
Proof.
  apply (X9_once_only_methods_counted op_response_certificates
           [Response_add_extension (PyExtensionType nonce_ext) true;
            Response_certificates [PyCertificate issuer_cert]]
           fresh_store _ 3%nat 7%nat
           (ResponseBuilderView None None None []) eq_refl eq_refl eq_refl).
Defined.

Lemma X10_witness :
  exists bv', view built_store 8%nat = Some bv' /\ well_formed bv'.
Proof.
  apply (X10_chain_keeps_well_formed
           [Response_add_response (PyCertificate leaf_cert)
              (PyCertificate issuer_cert) (PyHash SHA256) (PyCertStatus GOOD)
              (PyDatetime (datetime_of 2024 3 1))
              (PyDatetime (datetime_of 2024 3 8)) PyNone PyNone;
            Response_responder_id (PyResponderEncoding HASH)
              (PyCertificate issuer_cert);
            Response_certificates [PyCertificate issuer_cert]]
           (snd (OCSPRequestBuilder.add_certificate 2%nat
                   (PyCertificate leaf_cert) (PyCertificate issuer_cert)
                   (PyHash SHA256) fresh_store))
           built_store 3%nat 8%nat
           (ResponseBuilderView None None None [])
           new_response_builder_well_formed eq_refl eq_refl).
Defined.

Lemma X11_witness :
  OCSPRequestBuilder.build 5%nat
    (snd (chain [Request_add_extension (PyExtensionType nonce_ext) false;
                 Request_add_certificate (PyCertificate leaf_cert)
                   (PyCertificate issuer_cert) (PyHash SHA1)]
            2%nat (snd (new_OCSPRequestBuilder module_store))))
  = (Return (create_ocsp_request 5%nat),
     snd (chain [Request_add_extension (PyExtensionType nonce_ext) false;
                 Request_add_certificate (PyCertificate leaf_cert)
                   (PyCertificate issuer_cert) (PyHash SHA1)]
            2%nat (snd (new_OCSPRequestBuilder module_store)))).
Proof.
  apply (proj1 (proj2 (X11_request_chain_then_build []
                         [Request_add_extension (PyExtensionType nonce_ext)
                            false;
                          Request_add_certificate (PyCertificate leaf_cert)
                            (PyCertificate issuer_cert) (PyHash SHA1)]
                         5%nat _ eq_refl))).
  reflexivity.
Defined.

Lemma X12_witness :
  OCSPResponseBuilder.sign 4%nat (PyPrivateKey "responder key") (PyHash SHA256)
    (snd (chain [Response_responder_id (PyResponderEncoding HASH)
                   (PyCertificate issuer_cert);
                 Response_add_response (PyCertificate leaf_cert)
                   (PyCertificate issuer_cert) (PyHash SHA256)
                   (PyCertStatus GOOD) (PyDatetime (datetime_of 2024 3 1))
                   PyNone PyNone PyNone]
            2%nat (snd (new_OCSPResponseBuilder module_store))))
  = (Return (create_ocsp_response SUCCESSFUL (Some 4%nat)
               (PyPrivateKey "responder key") (PyHash SHA256)),
     snd (chain [Response_responder_id (PyResponderEncoding HASH)
                   (PyCertificate issuer_cert);
                 Response_add_response (PyCertificate leaf_cert)
                   (PyCertificate issuer_cert) (PyHash SHA256)
                   (PyCertStatus GOOD) (PyDatetime (datetime_of 2024 3 1))
                   PyNone PyNone PyNone]
            2%nat (snd (new_OCSPResponseBuilder module_store)))).
Proof.
  apply (proj2 (proj1 (X12_response_chain_then_sign []
                         [Response_responder_id (PyResponderEncoding HASH)
                            (PyCertificate issuer_cert);
                          Response_add_response (PyCertificate leaf_cert)
                            (PyCertificate issuer_cert) (PyHash SHA256)
                            (PyCertStatus GOOD)
                            (PyDatetime (datetime_of 2024 3 1))
                            PyNone PyNone PyNone]
                         4%nat _ (PyPrivateKey "responder key")
                         (PyHash SHA256) eq_refl))).
  split; reflexivity.
Defined.

Lemma X13_witness :
  view (snd (new_OCSPRequestBuilder built_store)) (length built_store)
  = Some (RequestBuilderView None []) /\
  view (snd (new_OCSPResponseBuilder built_store)) (length built_store)
  = Some (ResponseBuilderView None None None []).
Proof.
  apply (X13_default_extension_lists_stay_empty
           [RequestBuilderInstance
              {| Request._request := None; Request._extensions := 0%nat |};
            ResponseBuilderInstance
              {| Response._response := None; Response._responder_id := None;
                 Response._certs := None; Response._extensions := 1%nat |};
            RequestBuilderInstance
              {| Request._request :=
                   Some (PyCertificate leaf_cert, PyCertificate issuer_cert,
                         PyHash SHA256);
                 Request._extensions := 0%nat |}]
           [Response_add_response (PyCertificate leaf_cert)
              (PyCertificate issuer_cert) (PyHash SHA256) (PyCertStatus GOOD)
              (PyDatetime (datetime_of 2024 3 1))
              (PyDatetime (datetime_of 2024 3 8)) PyNone PyNone;
            Response_responder_id (PyResponderEncoding HASH)
              (PyCertificate issuer_cert);
            Response_certificates [PyCertificate issuer_cert]]
           3%nat (Return 8%nat) built_store eq_refl).
Defined.
